(** * Exploratory data analysis script for the Telco churn data

    A shallow embedding of [src/eda_script.py] and the properties of its
    [main] function: the data wrangling of the loaded frame (label
    normalisation and the rename of the columns), the summary table of the
    categorical features, the order of the computations, the assertions on the
    figures and the files that are written.

    The script is a sequence of calls into pandas, altair, seaborn,
    matplotlib and dataframe_image.  The pandas operations the properties are
    about ([replace], [rename], [select_dtypes], [unique], [nunique],
    [isnull]) are written out on a model of a data frame; the calls whose
    outcome depends on the file system or on a rendering back end are fields
    of a record of library behaviours ([Libs]) that [main] is run against. *)

From Stdlib Require Import Ascii QArith.
From stdpp Require Import base option list strings gmap.

Local Open Scope string_scope.
Local Open Scope Z_scope.
Local Open Scope list_scope.

(** ** Python values held in a column of dtype [object] *)

(** A cell of an object column as [pd.read_csv] can produce it: a [bool], an
    [int], a finite [float] (a rational stands for it), a [str], or the
    missing value NaN. *)
Inductive PyVal :=
| PBool (b : bool)
| PInt (z : Z)
| PFloat (q : Q)
| PStr (s : string)
| PNaN.

(** The key under which a value is found in a Python dict or in the hash
    table of [unique]: [True == 1 == 1.0] share a key, and so do all NaN in
    the hash table of pandas. *)
Inductive Key :=
| KNum (num : Z) (den : positive)
| KStr (s : string)
| KNaN.

Global Instance Key_eq_dec : EqDecision Key.
Proof. solve_decision. Defined.

Global Instance PyVal_inhabited : Inhabited PyVal := populate PNaN.

Definition key_of_Q (q : Q) : Key :=
  let r := Qred q in KNum (Qnum r) (Qden r).

Definition hash_key (v : PyVal) : Key :=
  match v with
  | PBool b => KNum (if b then 1 else 0) 1
  | PInt z => KNum z 1
  | PFloat q => key_of_Q q
  | PStr s => KStr s
  | PNaN => KNaN
  end.

(** Equality of the hash table ([unique], [nunique]). *)
Definition same_key (a b : PyVal) : bool := bool_decide (hash_key a = hash_key b).

(** [isnull] of one value. *)
Definition isnull (v : PyVal) : bool :=
  match v with PNaN => true | _ => false end.

(** Python's [a == b] on these values: numbers compare by value across
    [bool], [int] and [float], strings with strings, NaN equals nothing. *)
Definition py_eq (a b : PyVal) : bool :=
  negb (isnull a) && negb (isnull b) && same_key a b.

Definition is_bool (v : PyVal) : bool :=
  match v with PBool _ => true | _ => false end.

(** ** Series and data frames *)

(** A column is an array of one dtype: [bool], [int64], [float64] (with NaN
    as [None]) or [object]. *)
Inductive Series :=
| BoolCol (l : list bool)
| IntCol (l : list Z)
| FloatCol (l : list (option Q))
| ObjCol (l : list PyVal).

Definition float_val (o : option Q) : PyVal :=
  match o with Some q => PFloat q | None => PNaN end.

(** The cells of a column as Python values. *)
Definition values (s : Series) : list PyVal :=
  match s with
  | BoolCol l => PBool <$> l
  | IntCol l => PInt <$> l
  | FloatCol l => float_val <$> l
  | ObjCol l => l
  end.

(** [pandas.api.types.is_numeric_dtype]: [bool], [int64] and [float64] are
    numeric, [object] is not. *)
Definition is_numeric_dtype (s : Series) : bool :=
  match s with ObjCol _ => false | _ => true end.

Definition is_object_dtype (s : Series) : bool :=
  match s with ObjCol _ => true | _ => false end.

(** A data frame as [pd.read_csv] returns it: the columns in file order, each
    with its label.  [read_csv] makes the labels of the frame it returns
    distinct; [rename] can make two labels equal. *)
Abbreviation DataFrame := (list (string * Series)).

Definition columns (df : DataFrame) : list string := fst <$> df.

(** ** [Series.replace(to_replace, value)] with a [bool] to replace

    A block of dtype [int64] or [float64] cannot hold a [bool] and is returned
    as it is.  Otherwise the mask is [arr == to_replace], element by element;
    when no element matches the column is returned as it is, and when one does
    the column becomes an object column with [value] at the masked places. *)
Definition replace_val (to_replace value v : PyVal) : PyVal :=
  if py_eq v to_replace then value else v.

Definition replace (to_replace value : PyVal) (s : Series) : Series :=
  match s with
  | IntCol _ | FloatCol _ => s
  | BoolCol _ | ObjCol _ =>
      if existsb (fun v => py_eq v to_replace) (values s)
      then ObjCol (replace_val to_replace value <$> values s)
      else s
  end.

(** ** Exceptions *)

Inductive PyErr :=
| KeyError (key : string)
| AttributeError (msg : string)
| AssertionError (msg : string)
| LibError (lib msg : string).

(** ** Data wrangling (lines 41 to 59) *)

(** What [df[name]] evaluates to: a [Series] when one column has the label,
    a sub-frame when several have it; [KeyError] when none has. *)
Inductive Selection :=
| SelSeries (s : Series)
| SelFrame (df : DataFrame).

Definition has_label (name : string) (c : string * Series) : bool :=
  String.eqb (fst c) name.

Definition getitem (name : string) (df : DataFrame) : PyErr + Selection :=
  match List.filter (has_label name) df with
  | [] => inl (KeyError name)
  | [c] => inr (SelSeries (snd c))
  | cs => inr (SelFrame cs)
  end.

(** [train_df[name] = train_df[name].replace(to_replace, value)]: reading the
    column raises [KeyError] when the frame has no such label; the assignment
    puts what was read, replaced column by column, back at its place. *)
Definition setitem_replace (name : string) (to_replace value : PyVal)
    (df : DataFrame) : PyErr + DataFrame :=
  match getitem name df with
  | inl e => inl e
  | inr _ =>
      inr ((fun c => if has_label name c
                     then (fst c, replace to_replace value (snd c))
                     else c) <$> df)
  end.

(** Lines 42 and 43. *)
Definition normalize_label (df : DataFrame) : PyErr + DataFrame :=
  match setitem_replace "Churn" (PBool true) (PStr "True") df with
  | inl e => inl e
  | inr df1 => setitem_replace "Churn" (PBool false) (PStr "False") df1
  end.

(** The dict given to [rename(columns=...)], lines 45 to 59. *)
Definition rename_pairs : list (string * string) :=
  [ ("tenure", "Tenure");
    ("SeniorCitizen", "Senior Citizen");
    ("MonthlyCharges", "Monthly Charges");
    ("TotalCharges", "Total Charges");
    ("InternetService", "Internet Service");
    ("MultipleLines", "Multiple Lines");
    ("OnlineSecurity", "Online Security");
    ("OnlineBackup", "Online Backup");
    ("DeviceProtection", "Device Protection");
    ("StreamingMovies", "Streaming Movies");
    ("StreamingTV", "Streaming TV");
    ("PhoneService", "Phone Service");
    ("TechSupport", "Tech Support");
    ("PaperlessBilling", "Paperless Billing");
    ("PaymentMethod", "Payment Method") ].

Definition rename_dict : gmap string string := list_to_map rename_pairs.

(** [DataFrame.rename(columns=d)]: a label that is a key of [d] is replaced
    by its value, any other label is kept. *)
Definition rename_label (d : gmap string string) (name : string) : string :=
  default name (d !! name).

Definition rename (d : gmap string string) (df : DataFrame) : DataFrame :=
  (fun c => (rename_label d (fst c), snd c)) <$> df.

(** The frame the figures are drawn from: lines 42 to 59. *)
Definition wrangle (df : DataFrame) : PyErr + DataFrame :=
  match normalize_label df with
  | inl e => inl e
  | inr df' => inr (rename rename_dict df')
  end.

(** ** The table of the categorical features (lines 94 to 102) *)

(** [select_dtypes(include='object')]. *)
Definition select_dtypes_object (df : DataFrame) : DataFrame :=
  List.filter (fun c => is_object_dtype (snd c)) df.

(** [Series.unique()]: the values in order of first appearance, found through
    a hash table. *)
Definition hash_insert (uniques : list PyVal) (v : PyVal) : list PyVal :=
  if existsb (same_key v) uniques then uniques else uniques ++ [v].

Definition unique (l : list PyVal) : list PyVal := fold_left hash_insert l [].

(** [Series.nunique()]: the length of [unique()] once the missing values are
    dropped. *)
Definition nunique (l : list PyVal) : Z :=
  Z.of_nat (length (List.filter (fun v => negb (isnull v)) (unique l))).

(** [Series.isnull().sum()]. *)
Definition isnull_sum (l : list PyVal) : Z :=
  fold_left Z.add ((fun v => if isnull v then 1 else 0) <$> l) 0.

Record StatRow := {
  Feature : string;
  Unique_values : list PyVal;
  Categories : Z;
  Missing_values : Z
}.

(** [train_cat[c].unique()] and the like: a sub-frame has no such method. *)
Definition series_of (name : string) (df : DataFrame) : PyErr + Series :=
  match getitem name df with
  | inl e => inl e
  | inr (SelSeries s) => inr s
  | inr (SelFrame _) =>
      inl (AttributeError "'DataFrame' object has no attribute 'unique'")
  end.

Definition stat_row (c : string) (s : Series) : StatRow :=
  {| Feature := c;
     Unique_values := unique (values s);
     Categories := nunique (values s);
     Missing_values := isnull_sum (values s) |}.

(** The loop over [train_cat.columns]; [tmp] holds one row, which is
    overwritten and appended at every turn. *)
Fixpoint stats_loop (train_cat : DataFrame) (cs : list string)
    (catfeatures_stats : list StatRow) : PyErr + list StatRow :=
  match cs with
  | [] => inr catfeatures_stats
  | c :: cs' =>
      match series_of c train_cat with
      | inl e => inl e
      | inr s => stats_loop train_cat cs' (catfeatures_stats ++ [stat_row c s])
      end
  end.

Definition cat_stats (train_df : DataFrame) : PyErr + list StatRow :=
  let train_cat := select_dtypes_object train_df in
  stats_loop train_cat (columns train_cat) [].

(** ** Chart specifications *)

Inductive Field :=
| Shorthand (s : string)
| Repeat.

Record Enc := {
  channel : string;
  field : Field;
  enc_title : option string;
  enc_type : option string;
  bin_maxbins : option Z;
  stack : option bool
}.

Definition enc (ch : string) (f : Field) : Enc :=
  {| channel := ch; field := f; enc_title := None; enc_type := None;
     bin_maxbins := None; stack := None |}.

Inductive Mark := MarkBar | MarkSquare.

Record ChartSpec := {
  data : DataFrame;
  chart_title : option string;
  mark : Mark;
  opacity : option Q;
  encoding : list Enc;
  width : Z;
  height : Z;
  repeat : list string;
  repeat_columns : option Z;
  config : list (string * list (string * Z))
}.

(** Lines 62 to 75. *)
Definition class_imbalance_spec (train_df : DataFrame) : ChartSpec :=
  {| data := train_df;
     chart_title := Some "Class imbalance";
     mark := MarkBar;
     opacity := Some (6 # 10)%Q;
     encoding :=
       [ {| channel := "x"; field := Shorthand "count()"; enc_title := Some "Count";
            enc_type := None; bin_maxbins := None; stack := None |};
         enc "y" (Shorthand "Churn:N");
         enc "color" (Shorthand "Churn") ];
     width := 200; height := 200;
     repeat := []; repeat_columns := None;
     config := [ ("axis", [("labelFontSize", 14); ("titleFontSize", 16)]);
                 ("legend", [("titleFontSize", 14)]);
                 ("title", [("fontSize", 18)]) ] |}.

(** Lines 78 to 86. *)
Definition numeric_feat_dist_spec (train_df : DataFrame) : ChartSpec :=
  {| data := train_df;
     chart_title := None;
     mark := MarkBar;
     opacity := Some (6 # 10)%Q;
     encoding :=
       [ {| channel := "x"; field := Repeat; enc_title := None;
            enc_type := Some "quantitative"; bin_maxbins := Some 40; stack := None |};
         {| channel := "y"; field := Shorthand "count()"; enc_title := Some "Count";
            enc_type := None; bin_maxbins := None; stack := Some false |};
         enc "color" (Shorthand "Churn") ];
     width := 200; height := 200;
     repeat := ["Tenure"; "Monthly Charges"; "Total Charges"];
     repeat_columns := None;
     config := [] |}.

(** Lines 104 to 113. *)
Definition cat_feat_churn_dist_spec (train_df : DataFrame) : ChartSpec :=
  {| data := train_df;
     chart_title := None;
     mark := MarkBar;
     opacity := None;
     encoding :=
       [ {| channel := "x"; field := Shorthand "count()"; enc_title := Some "Count";
            enc_type := None; bin_maxbins := None; stack := None |};
         {| channel := "y"; field := Repeat; enc_title := None;
            enc_type := Some "nominal"; bin_maxbins := None; stack := None |};
         enc "color" (Shorthand "Churn") ];
     width := 300; height := 100;
     repeat := ["Senior Citizen"; "Partner"; "Dependents"];
     repeat_columns := Some 1;
     config := [] |}.

(** Lines 115 to 127. *)
Definition cat_feat_2dhist_spec (train_df : DataFrame) : ChartSpec :=
  {| data := train_df;
     chart_title := None;
     mark := MarkSquare;
     opacity := None;
     encoding :=
       [ {| channel := "x"; field := Repeat; enc_title := None;
            enc_type := Some "nominal"; bin_maxbins := None; stack := None |};
         enc "y" (Shorthand "Churn");
         enc "color" (Shorthand "count()");
         enc "size" (Shorthand "count()") ];
     width := 150; height := 80;
     repeat := ["Contract"; "Internet Service"; "Multiple Lines"; "Online Security";
                "Online Backup"; "Device Protection"; "Streaming Movies"; "Streaming TV";
                "Phone Service"; "Tech Support"; "Paperless Billing"; "Payment Method"];
     repeat_columns := Some 3;
     config := [] |}.

(** ** The world the script runs in *)

(** The result of [train_df.corr()]: a label and a row of coefficients for
    each numeric column (rationals stand for the floats). *)
Definition CorrMatrix := list (string * list Q).

(** What a written file shows. *)
Inductive Artifact :=
| TableImage (rows : list StatRow)
| ChartImage (spec : ChartSpec) (scale_factor : Z)
| HeatmapImage (cor : CorrMatrix).

(** The six things [main] computes from the frame. *)
Inductive Summary :=
| ClassImbalance
| NumericFeatDist
| NumericFeatCorr
| CatFeatStats
| CatFeatChurnDist
| CatFeat2dHist.

Global Instance Summary_eq_dec : EqDecision Summary.
Proof. solve_decision. Defined.

(** What [main] does that can be observed, in the order it does it. *)
Inductive Event :=
| Makedirs (path : string)
| ReadCsv (path : string)
| Computed (s : Summary)
| PltFigure (w h : Z)
| SnsSet (font_scale : Z)
| Saved (path : string).

Record World := {
  w_dirs : gset string;
  w_files : gmap string Artifact;
  w_stdout : list string;
  w_trace : list Event
}.

Definition log (e : Event) (w : World) : World :=
  {| w_dirs := w_dirs w; w_files := w_files w; w_stdout := w_stdout w;
     w_trace := w_trace w ++ [e] |}.

Definition add_dir (p : string) (w : World) : World :=
  {| w_dirs := {[p]} ∪ w_dirs w; w_files := w_files w; w_stdout := w_stdout w;
     w_trace := w_trace w |}.

Definition write_file (p : string) (a : Artifact) (w : World) : World :=
  {| w_dirs := w_dirs w; w_files := <[p := a]> (w_files w); w_stdout := w_stdout w;
     w_trace := w_trace w ++ [Saved p] |}.

Definition write_stdout (line : string) (w : World) : World :=
  {| w_dirs := w_dirs w; w_files := w_files w; w_stdout := w_stdout w ++ [line];
     w_trace := w_trace w |}.

(** What a call that builds an object does: it raises, or it returns [None],
    or it returns the object. *)
Inductive Outcome :=
| Raises (e : PyErr)
| ReturnsNone
| ReturnsObject.

(** The behaviour of the libraries that the script cannot see into: whether
    the directory can be made, what the file at a path parses to, whether a
    chart can be built and whether an image can be written. *)
Record Libs := {
  lib_makedirs : World -> string -> option PyErr;
  lib_read_csv : World -> string -> PyErr + DataFrame;
  lib_alt_chart : ChartSpec -> Outcome;
  lib_corr : DataFrame -> PyErr + CorrMatrix;
  lib_heatmap : CorrMatrix -> Outcome;
  lib_dfi_export : World -> list StatRow -> string -> option PyErr;
  lib_chart_save : World -> ChartSpec -> string -> option PyErr;
  lib_savefig : World -> CorrMatrix -> string -> option PyErr
}.

(** ** Computations that change the world and may raise *)

Definition M (A : Type) : Type := World -> (PyErr + A) * World.

Definition ret {A} (a : A) : M A := fun w => (inr a, w).

Definition raise {A} (e : PyErr) : M A := fun w => (inl e, w).

Definition bind {A B} (c : M A) (k : A -> M B) : M B :=
  fun w => match c w with
           | (inl e, w') => (inl e, w')
           | (inr a, w') => k a w'
           end.

Notation "'let!' x ':=' c 'in' k" := (bind c (fun x => k))
  (at level 10, x name, c at level 100, k at level 200).

Definition lift {A} (r : PyErr + A) : M A :=
  match r with inl e => raise e | inr a => ret a end.

Definition tell (e : Event) : M unit := fun w => (inr tt, log e w).

(** [try: c except: handler] with a bare [except]. *)
Definition try_except (c handler : M unit) : M unit :=
  fun w => match c w with
           | (inl _, w') => handler w'
           | (inr a, w') => (inr a, w')
           end.

Definition print (line : string) : M unit :=
  fun w => (inr tt, write_stdout line w).

(** The figures and the table of lines 61 to 127, under the names the script
    gives them.  A figure is [None] or the object that was built. *)
Record Figures := {
  target_class_imbalance : option ChartSpec;
  numeric_feat_dist : option ChartSpec;
  numeric_feat_corr : option CorrMatrix;
  catfeatures_stats : list StatRow;
  cat_feat_churn_dist : option ChartSpec;
  cat_feat_2dhist : option ChartSpec
}.

Definition assert_msg : string := "Output figure is empty".

Definition makedirs_msg : string :=
  "Wasn't able to create output directory. Check permissions.".

(** [test_figs], lines 149 to 151. *)
Definition test_figs {A} (fig : option A) : M unit :=
  match fig with
  | None => raise (AssertionError assert_msg)
  | Some _ => ret tt
  end.

Section Script.
Context (L : Libs).

Definition os_path_exists (p : string) : M bool :=
  fun w => (inr (bool_decide (p ∈ w_dirs w) || bool_decide (is_Some (w_files w !! p))), w).

Definition os_makedirs (p : string) : M unit :=
  fun w => match lib_makedirs L w p with
           | Some e => (inl e, log (Makedirs p) w)
           | None => (inr tt, add_dir p (log (Makedirs p) w))
           end.

Definition pd_read_csv (p : string) : M DataFrame :=
  fun w => (lib_read_csv L w p, log (ReadCsv p) w).

Definition alt_chart (s : Summary) (spec : ChartSpec) : M (option ChartSpec) :=
  match lib_alt_chart L spec with
  | Raises e => raise e
  | ReturnsNone => let! _ := tell (Computed s) in ret None
  | ReturnsObject => let! _ := tell (Computed s) in ret (Some spec)
  end.

Definition sns_heatmap (cor : CorrMatrix) : M (option CorrMatrix) :=
  match lib_heatmap L cor with
  | Raises e => raise e
  | ReturnsNone => let! _ := tell (Computed NumericFeatCorr) in ret None
  | ReturnsObject => let! _ := tell (Computed NumericFeatCorr) in ret (Some cor)
  end.

(** [dfi.export(table, path, table_conversion='latex')]. *)
Definition dfi_export (table : list StatRow) (path : string) : M unit :=
  fun w => match lib_dfi_export L w table path with
           | Some e => (inl e, w)
           | None => (inr tt, write_file path (TableImage table) w)
           end.

(** [fig.save(path, scale_factor=...)] of an altair chart. *)
Definition chart_save (fig : option ChartSpec) (path : string) (scale_factor : Z) : M unit :=
  match fig with
  | None => raise (AttributeError "'NoneType' object has no attribute 'save'")
  | Some spec =>
      fun w => match lib_chart_save L w spec path with
               | Some e => (inl e, w)
               | None => (inr tt, write_file path (ChartImage spec scale_factor) w)
               end
  end.

(** [fig.figure.savefig(path, scale_factor=3)] of the axes of the heat map;
    what matplotlib makes of the keyword is part of [lib_savefig]. *)
Definition savefig (fig : option CorrMatrix) (path : string) : M unit :=
  match fig with
  | None => raise (AttributeError "'NoneType' object has no attribute 'figure'")
  | Some cor =>
      fun w => match lib_savefig L w cor path with
               | Some e => (inl e, w)
               | None => (inr tt, write_file path (HeatmapImage cor) w)
               end
  end.

(** Lines 31 to 36: ensure the output directory exists. *)
Definition ensure_dir (out_dir : string) : M unit :=
  let! there := os_path_exists out_dir in
  if negb there
  then try_except (os_makedirs out_dir) (print makedirs_msg)
  else ret tt.

(** Lines 39 to 59: read the data and wrangle it. *)
Definition load (input : string) : M DataFrame :=
  let! train_df := pd_read_csv input in
  lift (wrangle train_df).

(** Lines 61 to 127. *)
Definition figures (train_df : DataFrame) : M Figures :=
  let! f1 := alt_chart ClassImbalance (class_imbalance_spec train_df) in
  let! f2 := alt_chart NumericFeatDist (numeric_feat_dist_spec train_df) in
  let! cor := lift (lib_corr L train_df) in
  let! _ := tell (PltFigure 10 10) in
  let! _ := tell (SnsSet 1) in
  let! f3 := sns_heatmap cor in
  let! table := lift (cat_stats train_df) in
  let! _ := tell (Computed CatFeatStats) in
  let! f4 := alt_chart CatFeatChurnDist (cat_feat_churn_dist_spec train_df) in
  let! f5 := alt_chart CatFeat2dHist (cat_feat_2dhist_spec train_df) in
  ret {| target_class_imbalance := f1; numeric_feat_dist := f2;
         numeric_feat_corr := f3; catfeatures_stats := table;
         cat_feat_churn_dist := f4; cat_feat_2dhist := f5 |}.

(** Lines 131 to 135. *)
Definition check (figs : Figures) : M unit :=
  let! _ := test_figs (target_class_imbalance figs) in
  let! _ := test_figs (numeric_feat_corr figs) in
  let! _ := test_figs (cat_feat_churn_dist figs) in
  let! _ := test_figs (cat_feat_2dhist figs) in
  test_figs (numeric_feat_dist figs).

(** Lines 139 to 146.  An f-string [f"{out_dir}name"] is the two strings put
    end to end. *)
Definition save_all (out_dir : string) (figs : Figures) : M unit :=
  let! _ := dfi_export (catfeatures_stats figs)
              (out_dir +:+ "table_1_cat_unique_values.png") in
  let! _ := chart_save (target_class_imbalance figs)
              (out_dir +:+ "figure_1_class_imbalance.png") 3 in
  let! _ := chart_save (numeric_feat_dist figs)
              (out_dir +:+ "figure_2_numeric_feat_dist.png") 3 in
  let! _ := savefig (numeric_feat_corr figs)
              (out_dir +:+ "figure_3_numeric_feat_corr.png") in
  let! _ := chart_save (cat_feat_churn_dist figs)
              (out_dir +:+ "figure_4_cat_feat_churn_dist.png") 3 in
  let! _ := chart_save (cat_feat_2dhist figs)
              (out_dir +:+ "figure_5_cat_feat_2dhist.png") 3 in
  print ("EDA reports successfully stored in: " +:+ " " +:+ out_dir).

(** [main], lines 29 to 146. *)
Definition main (input out_dir : string) : M unit :=
  let! _ := ensure_dir out_dir in
  let! train_df := load input in
  let! figs := figures train_df in
  let! _ := check figs in
  save_all out_dir figs.

End Script.

(** ** Reading a run *)

(** The paths written, in the order they were written. *)
Definition saved_paths (t : list Event) : list string :=
  omap (fun e => match e with Saved p => Some p | _ => None end) t.

(** The summaries computed, in the order they were computed. *)
Definition computed (t : list Event) : list Summary :=
  omap (fun e => match e with Computed s => Some s | _ => None end) t.

(** The file names of lines 139 to 144, in the order of the writes. *)
Definition out_names : list string :=
  [ "table_1_cat_unique_values.png";
    "figure_1_class_imbalance.png";
    "figure_2_numeric_feat_dist.png";
    "figure_3_numeric_feat_corr.png";
    "figure_4_cat_feat_churn_dist.png";
    "figure_5_cat_feat_2dhist.png" ].

(** The order in which lines 61 to 127 compute the summaries. *)
Definition code_order : list Summary :=
  [ ClassImbalance; NumericFeatDist; NumericFeatCorr; CatFeatStats;
    CatFeatChurnDist; CatFeat2dHist ].

(** The order with the table last. *)
Definition table_last_order : list Summary :=
  [ ClassImbalance; NumericFeatDist; NumericFeatCorr; CatFeatChurnDist;
    CatFeat2dHist; CatFeatStats ].

(** One of the five figures that [main] asserts on is [None]. *)
Definition has_none (figs : Figures) : bool :=
  negb (bool_decide (is_Some (target_class_imbalance figs)))
  || negb (bool_decide (is_Some (numeric_feat_corr figs)))
  || negb (bool_decide (is_Some (cat_feat_churn_dist figs)))
  || negb (bool_decide (is_Some (cat_feat_2dhist figs)))
  || negb (bool_decide (is_Some (numeric_feat_dist figs))).

(** What the six files hold after a run that wrote them all. *)
Definition artifacts (figs : Figures) : list (option Artifact) :=
  [ Some (TableImage (catfeatures_stats figs));
    (fun s => ChartImage s 3) <$> target_class_imbalance figs;
    (fun s => ChartImage s 3) <$> numeric_feat_dist figs;
    HeatmapImage <$> numeric_feat_corr figs;
    (fun s => ChartImage s 3) <$> cat_feat_churn_dist figs;
    (fun s => ChartImage s 3) <$> cat_feat_2dhist figs ].

(** ** Counting a column directly *)

(** The number of distinct values that are not missing: a value counts where
    it stands for the last time. *)
Fixpoint distinct_count (l : list PyVal) : nat :=
  match l with
  | [] => 0
  | v :: l' =>
      (if isnull v || existsb (same_key v) l' then 0 else 1)%nat + distinct_count l'
  end.

(** The number of missing values. *)
Fixpoint missing_count (l : list PyVal) : nat :=
  match l with
  | [] => 0
  | v :: l' => (if isnull v then 1 else 0)%nat + missing_count l'
  end.

(** ** Paths *)

Definition is_sep (c : ascii) : bool := Ascii.eqb c "/"%char.

(** A path cut after its last separator: the directory part, which ends with
    the separator or is empty, and the file name. *)
Fixpoint path_split (p : string) : string * string :=
  match p with
  | EmptyString => (EmptyString, EmptyString)
  | String c r =>
      let (h, t) := path_split r in
      match h with
      | EmptyString =>
          if is_sep c then (String c EmptyString, t) else (EmptyString, String c t)
      | String _ _ => (String c h, t)
      end
  end.

Fixpoint ends_with_sep (p : string) : bool :=
  match p with
  | EmptyString => false
  | String c EmptyString => is_sep c
  | String _ r => ends_with_sep r
  end.

Fixpoint has_sep (p : string) : bool :=
  match p with
  | EmptyString => false
  | String c r => is_sep c || has_sep r
  end.

(** ** Frames, libraries and worlds to run the script on *)

Definition empty_world : World :=
  {| w_dirs := ∅; w_files := ∅; w_stdout := []; w_trace := [] |}.

Definition sample_df : DataFrame :=
  [ ("tenure", IntCol [1; 34]);
    ("SeniorCitizen", IntCol [0; 1]);
    ("MonthlyCharges", FloatCol [Some (2985 # 100)%Q; Some (5695 # 100)%Q]);
    ("TotalCharges", FloatCol [Some (2985 # 100)%Q; None]);
    ("Partner", ObjCol [PStr "Yes"; PStr "No"]);
    ("Dependents", ObjCol [PStr "No"; PStr "No"]);
    ("InternetService", ObjCol [PStr "DSL"; PNaN]);
    ("Churn", BoolCol [false; true]) ].

(** Libraries for which every call succeeds; every path reads as [df]. *)
Definition good_libs (df : DataFrame) : Libs :=
  {| lib_makedirs := fun _ _ => None;
     lib_read_csv := fun _ _ => inr df;
     lib_alt_chart := fun _ => ReturnsObject;
     lib_corr := fun _ => inr [];
     lib_heatmap := fun _ => ReturnsObject;
     lib_dfi_export := fun _ _ _ => None;
     lib_chart_save := fun _ _ _ => None;
     lib_savefig := fun _ _ _ => None |}.

Definition permission_denied : PyErr := LibError "os" "Permission denied".

(** The same, but the directory cannot be made. *)
Definition no_mkdir_libs (df : DataFrame) : Libs :=
  {| lib_makedirs := fun _ _ => Some permission_denied;
     lib_read_csv := fun _ _ => inr df;
     lib_alt_chart := fun _ => ReturnsObject;
     lib_corr := fun _ => inr [];
     lib_heatmap := fun _ => ReturnsObject;
     lib_dfi_export := fun _ _ _ => None;
     lib_chart_save := fun _ _ _ => None;
     lib_savefig := fun _ _ _ => None |}.

Definition parser_error : PyErr := LibError "pandas" "Error tokenizing data".

(** The file cannot be parsed. *)
Definition bad_csv_libs : Libs :=
  {| lib_makedirs := fun _ _ => None;
     lib_read_csv := fun _ _ => inl parser_error;
     lib_alt_chart := fun _ => ReturnsObject;
     lib_corr := fun _ => inr [];
     lib_heatmap := fun _ => ReturnsObject;
     lib_dfi_export := fun _ _ _ => None;
     lib_chart_save := fun _ _ _ => None;
     lib_savefig := fun _ _ _ => None |}.

(** Nothing can be written. *)
Definition read_only_libs (df : DataFrame) : Libs :=
  {| lib_makedirs := fun _ _ => Some permission_denied;
     lib_read_csv := fun _ _ => inr df;
     lib_alt_chart := fun _ => ReturnsObject;
     lib_corr := fun _ => inr [];
     lib_heatmap := fun _ => ReturnsObject;
     lib_dfi_export := fun _ _ _ => Some permission_denied;
     lib_chart_save := fun _ _ _ => Some permission_denied;
     lib_savefig := fun _ _ _ => Some permission_denied |}.

(** The heat map comes back as [None]. *)
Definition no_heatmap_libs (df : DataFrame) : Libs :=
  {| lib_makedirs := fun _ _ => None;
     lib_read_csv := fun _ _ => inr df;
     lib_alt_chart := fun _ => ReturnsObject;
     lib_corr := fun _ => inr [];
     lib_heatmap := fun _ => ReturnsNone;
     lib_dfi_export := fun _ _ _ => None;
     lib_chart_save := fun _ _ _ => None;
     lib_savefig := fun _ _ _ => None |}.

(** ** The wrangling, column by column *)

(** The blocks that can hold a [bool]. *)
Definition holds_bool (s : Series) : bool :=
  match s with IntCol _ | FloatCol _ => false | _ => true end.

(** The two replacements of lines 42 and 43 on one column. *)
Definition normalize_series (s : Series) : Series :=
  replace (PBool false) (PStr "False") (replace (PBool true) (PStr "True") s).

Definition normalize_val (v : PyVal) : PyVal :=
  replace_val (PBool false) (PStr "False") (replace_val (PBool true) (PStr "True") v).

(** What the assignment of a replaced column does to the frame. *)
Definition replace_in (name : string) (a b : PyVal) (df : DataFrame) : DataFrame :=
  (fun c => if has_label name c then (fst c, replace a b (snd c)) else c) <$> df.

(** The frame after lines 42 and 43. *)
Definition normalize_in (df : DataFrame) : DataFrame :=
  (fun c => if has_label "Churn" c then (fst c, normalize_series (snd c)) else c) <$> df.

(** ** Comparing two worlds *)

(** [w'] comes after [w]: the trace and what was printed have only grown. *)
Definition extends (w w' : World) : Prop :=
  (exists t, w_trace w' = w_trace w ++ t) /\
  (exists o, w_stdout w' = w_stdout w ++ o).

(** Between [w] and [w'] no file was written and no summary computed. *)
Definition quiet (w w' : World) : Prop :=
  w_files w' = w_files w /\
  saved_paths (w_trace w') = saved_paths (w_trace w) /\
  computed (w_trace w') = computed (w_trace w).

(** The libraries accept the frame [df0] that [input] parses to: the charts
    and the heat map of the processed frame are built, and every image can be
    written. *)
Definition accepted (L : Libs) (input : string) (df0 : DataFrame) : Prop :=
  let df := rename rename_dict (normalize_in df0) in
  (forall w, lib_read_csv L w input = inr df0) /\
  lib_alt_chart L (class_imbalance_spec df) = ReturnsObject /\
  lib_alt_chart L (numeric_feat_dist_spec df) = ReturnsObject /\
  (exists cor, lib_corr L df = inr cor /\ lib_heatmap L cor = ReturnsObject) /\
  lib_alt_chart L (cat_feat_churn_dist_spec df) = ReturnsObject /\
  lib_alt_chart L (cat_feat_2dhist_spec df) = ReturnsObject /\
  (forall w t p, lib_dfi_export L w t p = None) /\
  (forall w c p, lib_chart_save L w c p = None) /\
  (forall w c p, lib_savefig L w c p = None).

(** The frame has the label column, and no two object columns of the
    processed frame share a label. *)
Definition well_formed (df0 : DataFrame) : Prop :=
  "Churn" ∈ columns df0 /\
  NoDup (columns (select_dtypes_object (rename rename_dict (normalize_in df0)))).

(** ** What a run that succeeds builds and writes *)

(** What lines 42 to 59 do to one column. *)
Definition wrangle_col (c : string * Series) : string * Series :=
  (rename_label rename_dict (fst c),
   if has_label "Churn" c then normalize_series (snd c) else snd c).

(** The string a boolean label becomes at lines 42 and 43. *)
Definition bool_str (b : bool) : PyVal := PStr (if b then "True" else "False").

(** The figures and the table of lines 61 to 127 when every figure is built. *)
Definition built_figures (train_df : DataFrame) (cor : CorrMatrix) : Figures :=
  {| target_class_imbalance := Some (class_imbalance_spec train_df);
     numeric_feat_dist := Some (numeric_feat_dist_spec train_df);
     numeric_feat_corr := Some cor;
     catfeatures_stats :=
       (fun c => stat_row (fst c) (snd c)) <$> select_dtypes_object train_df;
     cat_feat_churn_dist := Some (cat_feat_churn_dist_spec train_df);
     cat_feat_2dhist := Some (cat_feat_2dhist_spec train_df) |}.

(** The file names of lines 139 to 144 with what is written under each. *)
Definition built_files (train_df : DataFrame) (cor : CorrMatrix)
    : list (string * Artifact) :=
  [ ("table_1_cat_unique_values.png",
     TableImage ((fun c => stat_row (fst c) (snd c)) <$> select_dtypes_object train_df));
    ("figure_1_class_imbalance.png", ChartImage (class_imbalance_spec train_df) 3);
    ("figure_2_numeric_feat_dist.png", ChartImage (numeric_feat_dist_spec train_df) 3);
    ("figure_3_numeric_feat_corr.png", HeatmapImage cor);
    ("figure_4_cat_feat_churn_dist.png", ChartImage (cat_feat_churn_dist_spec train_df) 3);
    ("figure_5_cat_feat_2dhist.png", ChartImage (cat_feat_2dhist_spec train_df) 3) ].

(** The files after the writes of a list of named artifacts, in order. *)
Definition put_files (out_dir : string) (arts : list (string * Artifact))
    (m : gmap string Artifact) : gmap string Artifact :=
  fold_left (fun m na => <[out_dir +:+ fst na := snd na]> m) arts m.

(** The names paired with the artifacts, up to the first figure that is
    [None]: what the writes of lines 139 to 144 can reach. *)
Fixpoint some_prefix {A} (names : list string) (arts : list (option A))
    : list (string * A) :=
  match names, arts with
  | n :: names', Some a :: arts' => (n, a) :: some_prefix names' arts'
  | _, _ => []
  end.

Definition file_list (figs : Figures) : list (string * Artifact) :=
  some_prefix out_names (artifacts figs).

(** The line printed at line 146. *)
Definition success_msg (out_dir : string) : string :=
  "EDA reports successfully stored in: " +:+ " " +:+ out_dir.

(** A frame in which two object columns get the same label by the rename. *)
Definition clash_df : DataFrame :=
  [ ("PaymentMethod", ObjCol [PStr "Mailed check"]);
    ("Payment Method", ObjCol [PStr "Mailed check"]);
    ("Churn", BoolCol [false]) ].

(** The table cannot be written, the figures can. *)
Definition no_table_libs (df : DataFrame) : Libs :=
  {| lib_makedirs := fun _ _ => None;
     lib_read_csv := fun _ _ => inr df;
     lib_alt_chart := fun _ => ReturnsObject;
     lib_corr := fun _ => inr [];
     lib_heatmap := fun _ => ReturnsObject;
     lib_dfi_export := fun _ _ _ => Some permission_denied;
     lib_chart_save := fun _ _ _ => None;
     lib_savefig := fun _ _ _ => None |}.

(** ** The first occurrences of a column *)

(** The values of a column in order, each kept where its key stands for the
    first time: the head stays, and what shares its key is dropped from the
    rest. *)
Fixpoint firsts (l : list PyVal) : list PyVal :=
  match l with
  | [] => []
  | v :: l' => v :: List.filter (fun y => negb (same_key v y)) (firsts l')
  end.

(** ** Calls that return, and the world after some writes *)

(** The call does not raise: it returns [None] or an object. *)
Definition returns (o : Outcome) : Prop := forall e, o <> Raises e.

(** The world after the writes of a list of named artifacts, in order. *)
Definition wrote (out_dir : string) (arts : list (string * Artifact)) (w : World)
    : World :=
  fold_left (fun w na => write_file (out_dir +:+ fst na) (snd na) w) arts w.

Definition schema_error : PyErr := LibError "altair" "SchemaValidationError".

(** No chart can be built. *)
Definition no_chart_libs (df : DataFrame) : Libs :=
  {| lib_makedirs := fun _ _ => None;
     lib_read_csv := fun _ _ => inr df;
     lib_alt_chart := fun _ => Raises schema_error;
     lib_corr := fun _ => inr [];
     lib_heatmap := fun _ => ReturnsObject;
     lib_dfi_export := fun _ _ _ => None;
     lib_chart_save := fun _ _ _ => None;
     lib_savefig := fun _ _ _ => None |}.

(** The table and the charts can be written, the heat map cannot. *)
Definition no_savefig_libs (df : DataFrame) : Libs :=
  {| lib_makedirs := fun _ _ => None;
     lib_read_csv := fun _ _ => inr df;
     lib_alt_chart := fun _ => ReturnsObject;
     lib_corr := fun _ => inr [];
     lib_heatmap := fun _ => ReturnsObject;
     lib_dfi_export := fun _ _ _ => None;
     lib_chart_save := fun _ _ _ => None;
     lib_savefig := fun _ _ _ => Some permission_denied |}.

(** A label column of dtype object with a number, a string, a boolean and a
    missing value. *)
Definition mixed_df : DataFrame :=
  [ ("Partner", ObjCol [PStr "Yes"; PStr "No"; PStr "No"; PStr "Yes"]);
    ("Churn", ObjCol [PInt 1; PStr "No"; PBool false; PNaN]) ].

(** * Properties *)

(** ** Values *)

Lemma same_key_refl v : same_key v v = true.
Proof. unfold same_key. by apply bool_decide_eq_true. Qed.

Lemma same_key_sym a b : same_key a b = same_key b a.
Proof. unfold same_key. apply bool_decide_ext. naive_solver. Qed.

Lemma same_key_trans a b c :
  same_key a b = true -> same_key b c = true -> same_key a c = true.
Proof.
  unfold same_key. rewrite !bool_decide_eq_true. congruence.
Qed.

Lemma same_key_isnull a b : same_key a b = true -> isnull a = isnull b.
Proof.
  unfold same_key. rewrite bool_decide_eq_true.
  destruct a, b; simpl; try done; unfold key_of_Q; discriminate.
Qed.

Lemma same_key_existsb a b l :
  same_key a b = true -> existsb (same_key a) l = existsb (same_key b) l.
Proof.
  intros Hab. induction l as [|x l IH]; simpl; [done|].
  rewrite IH. f_equal.
  destruct (same_key b x) eqn:Hbx.
  - by apply same_key_trans with b.
  - destruct (same_key a x) eqn:Hax; [|done].
    rewrite <- Hbx. symmetry. apply same_key_trans with a; [|done].
    by rewrite same_key_sym.
Qed.

Lemma py_eq_bool_of_str s b : py_eq (PStr s) (PBool b) = false.
Proof. by destruct b. Qed.

Lemma py_eq_bool_of_nan b : py_eq PNaN (PBool b) = false.
Proof. done. Qed.

Lemma py_eq_bool_bool a b : py_eq (PBool a) (PBool b) = bool_decide (a = b).
Proof. by destruct a, b. Qed.

(** ** [replace] *)

Lemma replace_val_id a b l :
  existsb (fun v => py_eq v a) l = false -> replace_val a b <$> l = l.
Proof.
  induction l as [|x l IH]; [done|].
  rewrite fmap_cons. cbn [existsb]. intros [Hx Hl]%orb_false_elim.
  unfold replace_val at 1. rewrite Hx. by rewrite IH.
Qed.

Lemma values_replace a b s :
  values (replace a b s) =
  if holds_bool s then replace_val a b <$> values s else values s.
Proof.
  destruct s; simpl; try done.
  - destruct (existsb _ _) eqn:E; simpl; [done|]. by rewrite replace_val_id.
  - destruct (existsb _ _) eqn:E; simpl; [done|]. by rewrite replace_val_id.
Qed.

Lemma holds_bool_replace a b s : holds_bool (replace a b s) = holds_bool s.
Proof. destruct s; simpl; try done; by destruct (existsb _ _). Qed.

Lemma replace_numeric a b s : holds_bool s = false -> replace a b s = s.
Proof. by destruct s. Qed.

Lemma values_normalize_series s :
  values (normalize_series s) =
  if holds_bool s then normalize_val <$> values s else values s.
Proof.
  unfold normalize_series. rewrite values_replace, holds_bool_replace, values_replace.
  destruct (holds_bool s); [|done]. by rewrite <- list_fmap_compose.
Qed.

Lemma normalize_val_other v :
  py_eq v (PBool true) = false -> py_eq v (PBool false) = false ->
  normalize_val v = v.
Proof.
  intros Ht Hf. unfold normalize_val, replace_val. by rewrite Ht, Hf.
Qed.

Lemma normalize_val_bool b :
  normalize_val (PBool b) = PStr (if b then "True" else "False").
Proof. by destruct b. Qed.

Lemma normalize_val_isnull v : isnull (normalize_val v) = isnull v.
Proof.
  unfold normalize_val, replace_val.
  destruct (py_eq v (PBool true)) eqn:Ht.
  - simpl. unfold py_eq in Ht. by destruct (isnull v).
  - destruct (py_eq v (PBool false)) eqn:Hf; [|done].
    simpl. unfold py_eq in Hf. by destruct (isnull v).
Qed.

Lemma normalize_val_not_bool v : is_bool (normalize_val v) = false.
Proof.
  unfold normalize_val, replace_val.
  destruct (py_eq v (PBool true)) eqn:Ht; [done|].
  destruct (py_eq v (PBool false)) eqn:Hf; [done|].
  destruct v as [[]| | | |]; done.
Qed.

(** ** Reading and assigning a column *)

Lemma filter_has_label_nil name (df : DataFrame) :
  List.filter (has_label name) df = [] <-> name ∉ columns df.
Proof.
  unfold columns. induction df as [|[n s] df IH]; simpl.
  - split; [intros _; apply not_elem_of_nil | done].
  - unfold has_label at 1. simpl. destruct (String.eqb_spec n name) as [->|Hne].
    + split; [done|]. intros H. exfalso. apply H. left.
    + rewrite IH, not_elem_of_cons. split; [by intros ?|by intros [_ ?]].
Qed.

Lemma getitem_inl name df e :
  getitem name df = inl e <-> e = KeyError name /\ name ∉ columns df.
Proof.
  unfold getitem. rewrite <- filter_has_label_nil.
  destruct (List.filter (has_label name) df) as [|c [|c' l]].
  - split; [by intros [= <-]|by intros [-> _]].
  - split; [done|by intros [_ ?]].
  - split; [done|by intros [_ ?]].
Qed.

Lemma getitem_is_inr name df :
  name ∈ columns df -> exists sel, getitem name df = inr sel.
Proof.
  intros Hin. destruct (getitem name df) as [e|sel] eqn:E; [|by eexists].
  apply getitem_inl in E as [_ Hn]. done.
Qed.

Lemma setitem_replace_inr name a b df df' :
  setitem_replace name a b df = inr df' ->
  name ∈ columns df /\ df' = replace_in name a b df.
Proof.
  unfold setitem_replace. destruct (getitem name df) as [e|sel] eqn:E; [done|].
  intros [= <-]. split; [|done].
  destruct (decide (name ∈ columns df)) as [|Hn]; [done|].
  assert (getitem name df = inl (KeyError name)) as E' by by apply getitem_inl.
  congruence.
Qed.

Lemma setitem_replace_total name a b df :
  name ∈ columns df -> setitem_replace name a b df = inr (replace_in name a b df).
Proof.
  intros Hin. unfold setitem_replace.
  by destruct (getitem_is_inr name df Hin) as [sel ->].
Qed.

Lemma setitem_replace_missing name a b df :
  name ∉ columns df -> setitem_replace name a b df = inl (KeyError name).
Proof.
  intros Hn. unfold setitem_replace.
  assert (getitem name df = inl (KeyError name)) as -> by by apply getitem_inl.
  done.
Qed.

Lemma columns_replace_in name a b df : columns (replace_in name a b df) = columns df.
Proof.
  unfold columns, replace_in. rewrite <- list_fmap_compose.
  apply list_fmap_ext. intros i [n s] _. simpl. by destruct (has_label name (n, s)).
Qed.

Lemma normalize_in_replace df :
  replace_in "Churn" (PBool false) (PStr "False")
    (replace_in "Churn" (PBool true) (PStr "True") df) = normalize_in df.
Proof.
  unfold replace_in, normalize_in. rewrite <- list_fmap_compose.
  apply list_fmap_ext. intros i [n s] _. simpl.
  destruct (has_label "Churn" (n, s)) eqn:E; simpl; [|by rewrite E].
  unfold has_label in *. simpl in *. by rewrite E.
Qed.

Lemma normalize_label_total df :
  "Churn" ∈ columns df -> normalize_label df = inr (normalize_in df).
Proof.
  intros Hin. unfold normalize_label.
  rewrite setitem_replace_total by done.
  rewrite setitem_replace_total by by rewrite columns_replace_in.
  by rewrite normalize_in_replace.
Qed.

Lemma normalize_label_missing df :
  "Churn" ∉ columns df -> normalize_label df = inl (KeyError "Churn").
Proof.
  intros Hn. unfold normalize_label. by rewrite setitem_replace_missing.
Qed.

Lemma normalize_label_inr df df' :
  normalize_label df = inr df' -> "Churn" ∈ columns df /\ df' = normalize_in df.
Proof.
  intros H. destruct (decide ("Churn" ∈ columns df)) as [Hin|Hn].
  - rewrite normalize_label_total in H by done. naive_solver.
  - rewrite normalize_label_missing in H by done. done.
Qed.

Lemma wrangle_total df :
  "Churn" ∈ columns df -> wrangle df = inr (rename rename_dict (normalize_in df)).
Proof. intros Hin. unfold wrangle. by rewrite normalize_label_total. Qed.

Lemma wrangle_missing df :
  "Churn" ∉ columns df -> wrangle df = inl (KeyError "Churn").
Proof. intros Hn. unfold wrangle. by rewrite normalize_label_missing. Qed.

Lemma wrangle_inr df df' :
  wrangle df = inr df' ->
  "Churn" ∈ columns df /\ df' = rename rename_dict (normalize_in df).
Proof.
  unfold wrangle. destruct (normalize_label df) as [e|d] eqn:E; [done|].
  intros [= <-]. apply normalize_label_inr in E as [? ->]. done.
Qed.

Lemma lookup_columns (df : DataFrame) i name s :
  df !! i = Some (name, s) -> columns df !! i = Some name.
Proof. intros H. unfold columns. by rewrite list_lookup_fmap, H. Qed.

Lemma elem_of_columns (df : DataFrame) i name s :
  df !! i = Some (name, s) -> name ∈ columns df.
Proof. intros H. eapply list_elem_of_lookup_2, lookup_columns, H. Qed.

Lemma has_label_true name n (s : Series) : has_label name (n, s) = true <-> n = name.
Proof. unfold has_label. simpl. apply String.eqb_eq. Qed.

Lemma has_label_false name n (s : Series) : has_label name (n, s) = false <-> n <> name.
Proof. unfold has_label. simpl. apply String.eqb_neq. Qed.

Lemma normalize_in_lookup_churn df i s :
  df !! i = Some ("Churn", s) ->
  normalize_in df !! i = Some ("Churn", normalize_series s).
Proof. intros H. unfold normalize_in. by rewrite list_lookup_fmap, H. Qed.

Lemma normalize_in_lookup_other df i name s :
  df !! i = Some (name, s) -> name <> "Churn" ->
  normalize_in df !! i = Some (name, s).
Proof.
  intros H Hne. unfold normalize_in. rewrite list_lookup_fmap, H. simpl.
  apply has_label_false with (s := s) in Hne. by rewrite Hne.
Qed.

Lemma rename_lookup d (df : DataFrame) i name s :
  df !! i = Some (name, s) -> rename d df !! i = Some (rename_label d name, s).
Proof. intros H. unfold rename. by rewrite list_lookup_fmap, H. Qed.

Lemma rename_label_churn : rename_label rename_dict "Churn" = "Churn".
Proof. by vm_compute. Qed.

(** ** Label normalisation and rename *)

(** C2, as the claim states it, fails: a label column of strings other than
    the two literals, or with missing values, is left as it is. *)
Lemma C2_only_literals_counterexample :
  ~ (forall (df0 df : DataFrame) i s,
        wrangle df0 = inr df -> df !! i = Some ("Churn", s) ->
        Forall (fun v => v = PStr "True" \/ v = PStr "False") (values s)).
Proof.
  intros H.
  specialize (H [("Churn", ObjCol [PStr "Yes"; PNaN])]
                [("Churn", ObjCol [PStr "Yes"; PNaN])] 0%nat
                (ObjCol [PStr "Yes"; PNaN]) eq_refl eq_refl).
  apply Forall_cons in H as [[H|H] _]; discriminate H.
Qed.

(** C2, amended: when the label column of the input holds only booleans, the
    wrangling succeeds and the label column of the processed frame holds only
    the strings "True" and "False": no boolean and no missing value. *)
Theorem C2_label_literals (df0 : DataFrame) i s :
  df0 !! i = Some ("Churn", s) ->
  Forall (fun v => is_bool v = true) (values s) ->
  exists df s',
    wrangle df0 = inr df /\ df !! i = Some ("Churn", s') /\
    Forall (fun v => v = PStr "True" \/ v = PStr "False") (values s') /\
    Forall (fun v => is_bool v = false /\ isnull v = false) (values s').
Proof.
  intros Hi Hbool.
  exists (rename rename_dict (normalize_in df0)), (normalize_series s).
  split; [apply wrangle_total; by eapply elem_of_columns|].
  split.
  { erewrite rename_lookup by by apply normalize_in_lookup_churn.
    by rewrite rename_label_churn. }
  rewrite values_normalize_series.
  assert (Forall (fun v => v = PStr "True" \/ v = PStr "False")
            (normalize_val <$> values s)) as Hlit.
  { apply Forall_fmap. eapply Forall_impl; [exact Hbool|].
    intros [[]| | | |]; simpl; try done; intros _; [by left|by right]. }
  destruct (holds_bool s) eqn:Hs.
  - split; [done|]. eapply Forall_impl; [exact Hlit|].
    by intros v [->| ->].
  - assert (values s = []) as ->.
    { destruct s as [|l|l|]; try done; simpl in *.
      - destruct l; [done|]. by apply Forall_cons in Hbool as [? _].
      - destruct l as [|[q|] l]; [done| |]; by apply Forall_cons in Hbool as [? _]. }
    by split.
Qed.

Lemma C2_label_literals_witness :
  exists df s',
    wrangle sample_df = inr df /\ df !! 7%nat = Some ("Churn", s') /\
    Forall (fun v => v = PStr "True" \/ v = PStr "False") (values s') /\
    Forall (fun v => is_bool v = false /\ isnull v = false) (values s').
Proof.
  apply (C2_label_literals sample_df 7 (BoolCol [false; true])).
  - reflexivity.
  - simpl. repeat constructor.
Defined.

Lemma rename_pairs_NoDup : NoDup (fst <$> rename_pairs).
Proof. refine (bool_decide_unpack _ _). by vm_compute. Qed.

Lemma rename_dict_lookup src dst :
  rename_dict !! src = Some dst <-> (src, dst) ∈ rename_pairs.
Proof.
  unfold rename_dict. symmetry. apply elem_of_list_to_map, rename_pairs_NoDup.
Qed.

Lemma rename_label_mapped src dst :
  (src, dst) ∈ rename_pairs -> rename_label rename_dict src = dst.
Proof. intros H%rename_dict_lookup. unfold rename_label. by rewrite H. Qed.

Lemma rename_label_unmapped name :
  name ∉ (fst <$> rename_pairs) -> rename_label rename_dict name = name.
Proof.
  intros Hn. unfold rename_label.
  destruct (rename_dict !! name) as [dst|] eqn:E; [|done].
  apply rename_dict_lookup in E. exfalso. apply Hn.
  apply list_elem_of_fmap. by exists (name, dst).
Qed.

(** C3: the dict of the rename has 15 keys; in the processed frame a column
    whose label is one of the keys carries the display name, at the place it
    had in the input, and a column with any other label keeps its label; the
    frame has as many columns as the input. *)
Theorem C3_rename_columns (df0 df : DataFrame) :
  wrangle df0 = inr df ->
  length rename_pairs = 15%nat /\
  NoDup (fst <$> rename_pairs) /\
  length df = length df0 /\
  (forall i src dst,
      (src, dst) ∈ rename_pairs -> columns df0 !! i = Some src ->
      columns df !! i = Some dst) /\
  (forall i name,
      name ∉ (fst <$> rename_pairs) -> columns df0 !! i = Some name ->
      columns df !! i = Some name).
Proof.
  intros [Hin ->]%wrangle_inr.
  assert (forall i name, columns df0 !! i = Some name ->
            columns (rename rename_dict (normalize_in df0)) !! i
            = Some (rename_label rename_dict name)) as Hcol.
  { intros i name. unfold columns, rename, normalize_in.
    rewrite !list_lookup_fmap.
    destruct (df0 !! i) as [[n s]|]; simpl; [|done].
    intros [= ->]. by destruct (has_label "Churn" (name, s)). }
  split; [done|]. split; [apply rename_pairs_NoDup|].
  split; [unfold rename, normalize_in; by rewrite !length_fmap|].
  split.
  - intros i src dst Hp Hi. rewrite (Hcol i src Hi). f_equal.
    by apply rename_label_mapped.
  - intros i name Hn Hi. rewrite (Hcol i name Hi). f_equal.
    by apply rename_label_unmapped.
Qed.

Lemma C3_rename_columns_witness :
  exists df,
    wrangle sample_df = inr df /\
    columns df !! 0%nat = Some "Tenure" /\
    columns df !! 4%nat = Some "Partner".
Proof.
  eexists. split; [reflexivity|].
  pose proof (C3_rename_columns sample_df _ eq_refl) as (_ & _ & _ & Hm & Hu).
  split.
  - apply (Hm 0%nat "tenure" "Tenure"); [|reflexivity].
    refine (bool_decide_unpack _ _). by vm_compute.
  - apply (Hu 4%nat "Partner"); [|reflexivity].
    refine (bool_decide_unpack _ _). by vm_compute.
Defined.

(** C8, as the claim states it, fails: in an object column the number 1 is
    not a boolean, and it is replaced by "True". *)
Lemma C8_not_boolean_counterexample :
  ~ (forall (df0 df : DataFrame) i s s' j v,
        normalize_label df0 = inr df ->
        df0 !! i = Some ("Churn", s) -> df !! i = Some ("Churn", s') ->
        values s !! j = Some v -> is_bool v = false ->
        values s' !! j = Some v).
Proof.
  intros H.
  specialize (H [("Churn", ObjCol [PInt 1; PStr "No"])]
                [("Churn", ObjCol [PStr "True"; PStr "No"])] 0%nat
                (ObjCol [PInt 1; PStr "No"]) (ObjCol [PStr "True"; PStr "No"])
                0%nat (PInt 1) eq_refl eq_refl eq_refl eq_refl eq_refl).
  discriminate H.
Qed.

Lemma normalize_val_match v b :
  py_eq v (PBool b) = true -> normalize_val v = bool_str b.
Proof.
  intros H. unfold normalize_val, replace_val. destruct b.
  - by rewrite H.
  - destruct (py_eq v (PBool true)) eqn:Ht; [|by rewrite H].
    exfalso. unfold py_eq, same_key in *.
    destruct (isnull v); [done|]. cbn [negb isnull andb] in *.
    apply bool_decide_eq_true in H, Ht. rewrite H in Ht. discriminate Ht.
Qed.

(** C8, amended: the label normalisation succeeds when the frame has a
    'Churn' column; it keeps every column with another label as it is; in the
    'Churn' column it keeps the number of values and every value that does not
    compare equal to True or to False, which every string and every missing
    value is, and it keeps a column of dtype int64 or float64 whole.  In a
    'Churn' column of dtype bool or object, a value that compares equal to
    True becomes "True" and one that compares equal to False becomes "False":
    the booleans, and with them the numbers 1 and 0. *)
Theorem C8_normalize_frame (df0 : DataFrame) :
  "Churn" ∈ columns df0 ->
  exists df,
    normalize_label df0 = inr df /\
    length df = length df0 /\
    (forall i name s,
        df0 !! i = Some (name, s) -> name <> "Churn" -> df !! i = Some (name, s)) /\
    (forall i s,
        df0 !! i = Some ("Churn", s) ->
        exists s',
          df !! i = Some ("Churn", s') /\
          length (values s') = length (values s) /\
          (holds_bool s = false -> s' = s) /\
          (forall j v,
              values s !! j = Some v ->
              py_eq v (PBool true) = false -> py_eq v (PBool false) = false ->
              values s' !! j = Some v) /\
          (forall j v,
              values s !! j = Some v ->
              isnull v = true \/ (exists str, v = PStr str) ->
              values s' !! j = Some v) /\
          (holds_bool s = true ->
           forall j v b,
             values s !! j = Some v -> py_eq v (PBool b) = true ->
             values s' !! j = Some (bool_str b)) /\
          (holds_bool s = true ->
           forall j,
             (forall b, values s !! j = Some (PBool b) ->
                        values s' !! j = Some (bool_str b)) /\
             (values s !! j = Some (PInt 1) -> values s' !! j = Some (PStr "True")) /\
             (values s !! j = Some (PInt 0) -> values s' !! j = Some (PStr "False")))).
Proof.
  intros Hin. exists (normalize_in df0).
  split; [by apply normalize_label_total|].
  split; [unfold normalize_in; by rewrite length_fmap|].
  split; [intros i name s; apply normalize_in_lookup_other|].
  intros i s Hi. exists (normalize_series s).
  split; [by apply normalize_in_lookup_churn|].
  assert (forall j v, values s !! j = Some v ->
            py_eq v (PBool true) = false -> py_eq v (PBool false) = false ->
            values (normalize_series s) !! j = Some v) as Hkeep.
  { intros j v Hj Ht Hf. rewrite values_normalize_series.
    destruct (holds_bool s); [|done].
    rewrite list_lookup_fmap, Hj. simpl. by rewrite normalize_val_other. }
  assert (holds_bool s = true ->
          forall j v b,
            values s !! j = Some v -> py_eq v (PBool b) = true ->
            values (normalize_series s) !! j = Some (bool_str b)) as Hrepl.
  { intros Hs j v b Hj Hb. rewrite values_normalize_series, Hs.
    rewrite list_lookup_fmap, Hj. simpl. by rewrite (normalize_val_match v b). }
  split.
  { rewrite values_normalize_series. destruct (holds_bool s); [|done].
    by rewrite length_fmap. }
  split.
  { intros Hs. unfold normalize_series.
    rewrite (replace_numeric _ _ s Hs). by apply replace_numeric. }
  split; [exact Hkeep|].
  split.
  { intros j v Hj [Hnull|[str ->]].
    - apply Hkeep; [done| |]; by destruct v.
    - apply Hkeep; [done| |]; apply py_eq_bool_of_str. }
  split; [exact Hrepl|].
  intros Hs j. split; [|split].
  - intros b Hj. apply (Hrepl Hs j (PBool b) b Hj). by destruct b.
  - intros Hj. by apply (Hrepl Hs j (PInt 1) true Hj).
  - intros Hj. by apply (Hrepl Hs j (PInt 0) false Hj).
Qed.

Lemma C8_normalize_frame_witness :
  exists df s',
    normalize_label mixed_df = inr df /\
    df !! 0%nat = Some ("Partner", ObjCol [PStr "Yes"; PStr "No"; PStr "No"; PStr "Yes"]) /\
    df !! 1%nat = Some ("Churn", s') /\
    values s' !! 0%nat = Some (PStr "True") /\
    values s' !! 1%nat = Some (PStr "No") /\
    values s' !! 2%nat = Some (PStr "False") /\
    values s' !! 3%nat = Some PNaN.
Proof.
  destruct (C8_normalize_frame mixed_df) as (df & Hdf & _ & Hother & Hchurn).
  - refine (bool_decide_unpack _ _). by vm_compute.
  - destruct (Hchurn 1%nat (ObjCol [PInt 1; PStr "No"; PBool false; PNaN]) eq_refl)
      as (s' & Hs' & _ & _ & _ & Hkeep & _ & Hrepl).
    destruct (Hrepl eq_refl 0%nat) as (_ & Hone & _).
    destruct (Hrepl eq_refl 2%nat) as (Hbool & _ & _).
    exists df, s'. split; [exact Hdf|].
    split; [by apply Hother|]. split; [exact Hs'|].
    split; [by apply Hone|].
    split; [apply Hkeep; [reflexivity|right; by exists "No"]|].
    split; [by apply (Hbool false)|].
    apply Hkeep; [reflexivity|by left].
Defined.

(** ** The table of the categorical features *)

Lemma unique_snoc l x : unique (l ++ [x]) = hash_insert (unique l) x.
Proof. unfold unique. by rewrite fold_left_app. Qed.

Lemma existsb_snoc {A} (f : A -> bool) l x :
  existsb f (l ++ [x]) = existsb f l || f x.
Proof. rewrite existsb_app. simpl. by rewrite orb_false_r. Qed.

(** A value is in the hash table as soon as it is in the column. *)
Lemma existsb_unique x l :
  existsb (same_key x) (unique l) = existsb (same_key x) l.
Proof.
  induction l as [|y l IH] using rev_ind; [done|].
  rewrite unique_snoc, existsb_snoc. unfold hash_insert.
  destruct (existsb (same_key y) (unique l)) eqn:Ey.
  - rewrite IH. destruct (same_key x y) eqn:Exy; [|by rewrite orb_false_r].
    rewrite orb_true_r. rewrite <- IH.
    by rewrite (same_key_existsb x y).
  - by rewrite existsb_snoc, IH.
Qed.

Lemma distinct_count_snoc l x :
  distinct_count (l ++ [x]) =
  (distinct_count l + (if isnull x || existsb (same_key x) l then 0 else 1))%nat.
Proof.
  induction l as [|y l IH]; simpl.
  - by rewrite orb_false_r.
  - rewrite IH, existsb_snoc.
    destruct (same_key y x) eqn:Eyx.
    + rewrite (same_key_sym x y), Eyx.
      rewrite (same_key_isnull y x Eyx), (same_key_existsb y x l Eyx).
      rewrite !orb_true_r. simpl.
      destruct (isnull x || existsb (same_key x) l); lia.
    + rewrite (same_key_sym x y), Eyx, orb_false_r. simpl. lia.
Qed.

(** [nunique] is the direct count of the distinct values that are not
    missing. *)
Lemma nunique_distinct_count l : nunique l = Z.of_nat (distinct_count l).
Proof.
  unfold nunique. f_equal.
  induction l as [|x l IH] using rev_ind; [done|].
  rewrite unique_snoc, distinct_count_snoc, <- IH. unfold hash_insert.
  rewrite <- (existsb_unique x l).
  destruct (existsb (same_key x) (unique l)).
  - rewrite orb_true_r. lia.
  - rewrite orb_false_r, List.filter_app, length_app. simpl.
    by destruct (isnull x).
Qed.

Lemma fold_left_add_shift (l : list Z) a : fold_left Z.add l a = a + fold_left Z.add l 0.
Proof.
  revert a. induction l as [|x l IH]; intros a; cbn [fold_left]; [lia|].
  rewrite (IH (a + x)), (IH (0 + x)). lia.
Qed.

(** [isnull().sum()] is the direct count of the missing values. *)
Lemma isnull_sum_missing_count l : isnull_sum l = Z.of_nat (missing_count l).
Proof.
  unfold isnull_sum. induction l as [|x l IH]; [done|].
  rewrite fmap_cons. cbn [fold_left missing_count].
  rewrite fold_left_add_shift, IH. destruct (isnull x); lia.
Qed.

Lemma filter_has_label_unique (df : DataFrame) c s :
  NoDup (columns df) -> (c, s) ∈ df -> List.filter (has_label c) df = [(c, s)].
Proof.
  unfold columns. induction df as [|[n t] df IH]; intros Hnd Hin.
  - by apply elem_of_nil in Hin.
  - rewrite fmap_cons in Hnd. apply NoDup_cons in Hnd as [Hn Hnd]. simpl in Hn.
    cbn [List.filter]. apply elem_of_cons in Hin as [[= <- <-]|Hin].
    + assert (has_label c (c, s) = true) as -> by by apply has_label_true.
      f_equal. apply filter_has_label_nil. exact Hn.
    + assert (has_label c (n, t) = false) as ->.
      { apply has_label_false. intros ->. apply Hn.
        apply list_elem_of_fmap. by exists (c, s). }
      by apply IH.
Qed.

Lemma series_of_unique (df : DataFrame) c s :
  NoDup (columns df) -> (c, s) ∈ df -> series_of c df = inr s.
Proof.
  intros Hnd Hin. unfold series_of, getitem.
  by rewrite (filter_has_label_unique df c s Hnd Hin).
Qed.

Lemma stats_loop_rows (train_cat cols : DataFrame) acc :
  (forall c s, (c, s) ∈ cols -> series_of c train_cat = inr s) ->
  stats_loop train_cat (columns cols) acc
  = inr (acc ++ ((fun c => stat_row (fst c) (snd c)) <$> cols)).
Proof.
  revert acc. induction cols as [|[c s] cols IH]; intros acc Hs.
  - simpl. by rewrite app_nil_r.
  - unfold columns. rewrite !fmap_cons. cbn [stats_loop fst snd].
    rewrite (Hs c s) by left.
    fold (columns cols). rewrite IH.
    + by rewrite <- app_assoc.
    + intros c' s' Hin. apply Hs. by right.
Qed.

Lemma cat_stats_rows (train_df : DataFrame) :
  NoDup (columns (select_dtypes_object train_df)) ->
  cat_stats train_df
  = inr ((fun c => stat_row (fst c) (snd c)) <$> select_dtypes_object train_df).
Proof.
  intros Hnd. unfold cat_stats.
  rewrite stats_loop_rows; [done|].
  intros c s Hin. by apply series_of_unique.
Qed.

Lemma select_dtypes_object_numeric (df : DataFrame) :
  select_dtypes_object df
  = List.filter (fun c => negb (is_numeric_dtype (snd c))) df.
Proof.
  unfold select_dtypes_object. apply List.filter_ext.
  by intros [n []].
Qed.

Lemma missing_count_normalize l :
  missing_count (normalize_val <$> l) = missing_count l.
Proof.
  induction l as [|x l IH]; [done|].
  rewrite fmap_cons. cbn [missing_count]. by rewrite normalize_val_isnull, IH.
Qed.

Lemma missing_count_normalize_series s :
  missing_count (values (normalize_series s)) = missing_count (values s).
Proof.
  rewrite values_normalize_series. destruct (holds_bool s); [|done].
  apply missing_count_normalize.
Qed.

(** C4, as the claim states it, fails: a label column that holds both the
    boolean True and the string "True" has two distinct values in the input
    and one in the table. *)
Lemma C4_input_counts_counterexample :
  ~ (forall (df0 df : DataFrame) table i name s row,
        wrangle df0 = inr df -> cat_stats df = inr table ->
        df0 !! i = Some (name, s) -> row ∈ table ->
        Feature row = rename_label rename_dict name ->
        Categories row = Z.of_nat (distinct_count (values s)) /\
        Missing_values row = Z.of_nat (missing_count (values s))).
Proof.
  intros H.
  pose (df0 := [("Churn", ObjCol [PBool true; PStr "True"])] : DataFrame).
  pose (row := stat_row "Churn" (ObjCol [PStr "True"; PStr "True"])).
  destruct (H df0 [("Churn", ObjCol [PStr "True"; PStr "True"])] [row] 0%nat
              "Churn" (ObjCol [PBool true; PStr "True"]) row
              eq_refl eq_refl eq_refl) as [Hc _].
  - left.
  - reflexivity.
  - vm_compute in Hc. discriminate Hc.
Qed.

(** C4, amended: when the labels of the object columns of the processed frame
    are distinct, the table has one row for each column of the processed frame
    that is not numeric, in the order of the columns; the row carries the
    label, and its counts of the distinct and of the missing values are the
    direct counts over that column of the processed frame.  That column holds
    the values of the input column for every label but 'Churn'; the 'Churn'
    column has the missing values of the input. *)
Theorem C4_summary_table (df0 df : DataFrame) :
  wrangle df0 = inr df ->
  NoDup (columns (select_dtypes_object df)) ->
  exists table,
    cat_stats df = inr table /\
    Forall2 (fun row c =>
               Feature row = fst c /\
               Categories row = Z.of_nat (distinct_count (values (snd c))) /\
               Missing_values row = Z.of_nat (missing_count (values (snd c))))
            table (List.filter (fun c => negb (is_numeric_dtype (snd c))) df) /\
    (forall i name s,
        df0 !! i = Some (name, s) -> name <> "Churn" ->
        df !! i = Some (rename_label rename_dict name, s)) /\
    (forall i s,
        df0 !! i = Some ("Churn", s) ->
        exists s', df !! i = Some ("Churn", s') /\
                   missing_count (values s') = missing_count (values s)).
Proof.
  intros Hw Hnd. eexists. split; [by apply cat_stats_rows|].
  split.
  { rewrite <- select_dtypes_object_numeric.
    apply Forall2_fmap_l, Forall_Forall2_diag, Forall_forall.
    intros [c s] _. simpl.
    by rewrite nunique_distinct_count, isnull_sum_missing_count. }
  apply wrangle_inr in Hw as [_ ->]. split.
  - intros i name s Hi Hne. apply rename_lookup.
    by apply normalize_in_lookup_other.
  - intros i s Hi. exists (normalize_series s). split.
    + erewrite rename_lookup by by apply normalize_in_lookup_churn.
      by rewrite rename_label_churn.
    + apply missing_count_normalize_series.
Qed.

Lemma C4_summary_table_witness :
  exists table,
    cat_stats (rename rename_dict (normalize_in sample_df)) = inr table /\
    Feature <$> table = ["Partner"; "Dependents"; "Internet Service"; "Churn"].
Proof.
  destruct (C4_summary_table sample_df _ eq_refl) as (table & Ht & _).
  - refine (bool_decide_unpack _ _). by vm_compute.
  - exists table. split; [exact Ht|].
    vm_compute in Ht. injection Ht as <-. reflexivity.
Defined.

(** ** The stages of [main] *)

Lemma extends_refl w : extends w w.
Proof. split; exists []; by rewrite app_nil_r. Qed.

Lemma extends_trans w1 w2 w3 : extends w1 w2 -> extends w2 w3 -> extends w1 w3.
Proof.
  intros [[t1 Ht1] [o1 Ho1]] [[t2 Ht2] [o2 Ho2]]. split.
  - exists (t1 ++ t2). by rewrite Ht2, Ht1, app_assoc.
  - exists (o1 ++ o2). by rewrite Ho2, Ho1, app_assoc.
Qed.

Lemma extends_log e w : extends w (log e w).
Proof. split; [by exists [e]|exists []; simpl; by rewrite app_nil_r]. Qed.

Lemma extends_write_stdout line w : extends w (write_stdout line w).
Proof. split; [exists []; simpl; by rewrite app_nil_r|by exists [line]]. Qed.

Lemma extends_add_dir p w : extends w (add_dir p w).
Proof. split; exists []; simpl; by rewrite app_nil_r. Qed.

Lemma extends_write_file p a w : extends w (write_file p a w).
Proof. split; [by exists [Saved p]|exists []; simpl; by rewrite app_nil_r]. Qed.

Lemma quiet_refl w : quiet w w.
Proof. done. Qed.

Lemma quiet_trans w1 w2 w3 : quiet w1 w2 -> quiet w2 w3 -> quiet w1 w3.
Proof. intros (?&?&?) (?&?&?). repeat split; congruence. Qed.

Lemma saved_paths_snoc t e :
  saved_paths (t ++ [e]) = saved_paths t ++ match e with Saved p => [p] | _ => [] end.
Proof. unfold saved_paths. rewrite omap_app. by destruct e. Qed.

Lemma computed_snoc t e :
  computed (t ++ [e]) = computed t ++ match e with Computed s => [s] | _ => [] end.
Proof. unfold computed. rewrite omap_app. by destruct e. Qed.

Ltac solve_extends :=
  first
    [ apply extends_refl
    | eapply extends_trans;
      [ | first [ apply extends_log | apply extends_write_file
                | apply extends_write_stdout | apply extends_add_dir ] ];
      solve_extends ].

Ltac simpl_trace :=
  cbn [w_trace w_files w_stdout w_dirs log write_file write_stdout add_dir];
  rewrite ?saved_paths_snoc, ?computed_snoc;
  cbn [app]; rewrite ?app_nil_r, <- ?app_assoc; cbn [app].

Ltac pick_prefix :=
  first
    [ exists 0%nat; split; [by rewrite ?app_nil_r|done]
    | exists 1%nat; split; [done|done]
    | exists 2%nat; split; [done|done]
    | exists 3%nat; split; [done|done]
    | exists 4%nat; split; [done|done]
    | exists 5%nat; split; [done|done]
    | exists 6%nat; split; [done|done] ].

Ltac run_done :=
  repeat match goal with |- _ /\ _ => split end;
  first [ solve_extends | simpl_trace; first [ done | pick_prefix ] ].

Section Stages.
Context (L : Libs).

(** What [ensure_dir] leaves behind, case by case. *)
Lemma ensure_dir_cases out_dir w :
  ensure_dir L out_dir w = (inr tt, w) \/
  (lib_makedirs L w out_dir = None /\
   ensure_dir L out_dir w = (inr tt, add_dir out_dir (log (Makedirs out_dir) w))) \/
  (exists e, lib_makedirs L w out_dir = Some e /\
   ensure_dir L out_dir w
   = (inr tt, write_stdout makedirs_msg (log (Makedirs out_dir) w))).
Proof.
  unfold ensure_dir, bind, os_path_exists, try_except, os_makedirs, print, ret.
  destruct (negb _); [|by left].
  destruct (lib_makedirs L w out_dir) as [e|] eqn:E.
  - right. right. by exists e.
  - right. by left.
Qed.

(** The directory step never raises. *)
Lemma ensure_dir_returns out_dir w :
  exists w', ensure_dir L out_dir w = (inr tt, w') /\ quiet w w' /\ extends w w'.
Proof.
  destruct (ensure_dir_cases out_dir w) as [H|[[_ H]|(e & _ & H)]];
    rewrite H; eexists; (split; [done|]); split.
  - done.
  - apply extends_refl.
  - repeat split; simpl; by rewrite ?saved_paths_snoc, ?computed_snoc, ?app_nil_r.
  - eapply extends_trans; [apply extends_log|apply extends_add_dir].
  - repeat split; simpl; by rewrite ?saved_paths_snoc, ?computed_snoc, ?app_nil_r.
  - eapply extends_trans; [apply extends_log|apply extends_write_stdout].
Qed.

Lemma load_eq input w :
  load L input w =
  (match lib_read_csv L w input with
   | inl e => inl e
   | inr df0 => wrangle df0
   end, log (ReadCsv input) w).
Proof.
  unfold load, bind, pd_read_csv, lift, raise, ret.
  destruct (lib_read_csv L w input) as [e|df0]; [done|].
  by destruct (wrangle df0).
Qed.

Lemma load_quiet input w : quiet w (snd (load L input w)) /\ extends w (snd (load L input w)).
Proof.
  rewrite load_eq. simpl. split; [|apply extends_log].
  repeat split; simpl; by rewrite ?saved_paths_snoc, ?computed_snoc, ?app_nil_r.
Qed.

Lemma check_eq figs w :
  check figs w =
  (if has_none figs then inl (AssertionError assert_msg) else inr tt, w).
Proof.
  unfold check, has_none, bind, test_figs, raise, ret.
  destruct figs as [[?|] [?|] [?|] ? [?|] [?|]]; reflexivity.
Qed.

(** The figures stage writes no file, and computes the summaries in the
    order of [code_order], as far as it gets. *)
Lemma figures_effect train_df w :
  w_files (snd (figures L train_df w)) = w_files w /\
  saved_paths (w_trace (snd (figures L train_df w))) = saved_paths (w_trace w) /\
  extends w (snd (figures L train_df w)) /\
  exists k,
    computed (w_trace (snd (figures L train_df w)))
    = computed (w_trace w) ++ take k code_order /\
    (forall figs, fst (figures L train_df w) = inr figs -> k = 6%nat).
Proof.
  unfold figures, alt_chart, sns_heatmap, bind, lift, tell, raise, ret.
  destruct (lib_alt_chart L (class_imbalance_spec train_df));
    cbn [fst snd]; try by run_done.
  all: destruct (lib_alt_chart L (numeric_feat_dist_spec train_df));
    cbn [fst snd]; try by run_done.
  all: destruct (lib_corr L train_df) as [e|cor]; cbn [fst snd]; try by run_done.
  all: destruct (lib_heatmap L cor); cbn [fst snd]; try by run_done.
  all: destruct (cat_stats train_df); cbn [fst snd]; try by run_done.
  all: destruct (lib_alt_chart L (cat_feat_churn_dist_spec train_df));
    cbn [fst snd]; try by run_done.
  all: destruct (lib_alt_chart L (cat_feat_2dhist_spec train_df));
    cbn [fst snd]; by run_done.
Qed.

(** The saving stage computes nothing, and writes the files in the order
    of [out_names], each at [out_dir] followed by its name, as far as it
    gets. *)
Lemma save_all_effect out_dir figs w :
  computed (w_trace (snd (save_all L out_dir figs w))) = computed (w_trace w) /\
  extends w (snd (save_all L out_dir figs w)) /\
  exists k,
    saved_paths (w_trace (snd (save_all L out_dir figs w)))
    = saved_paths (w_trace w) ++ take k ((fun n => out_dir +:+ n) <$> out_names) /\
    (forall u, fst (save_all L out_dir figs w) = inr u -> k = 6%nat).
Proof.
  unfold save_all, dfi_export, chart_save, savefig, print, bind, raise, ret.
  destruct figs as [f1 f2 f3 table f4 f5]. cbn [catfeatures_stats
    target_class_imbalance numeric_feat_dist numeric_feat_corr
    cat_feat_churn_dist cat_feat_2dhist].
  destruct (lib_dfi_export L w table _); cbn [fst snd]; try by run_done.
  destruct f1 as [s1|]; cbn [fst snd]; try by run_done.
  destruct (lib_chart_save L _ s1 _); cbn [fst snd]; try by run_done.
  destruct f2 as [s2|]; cbn [fst snd]; try by run_done.
  destruct (lib_chart_save L _ s2 _); cbn [fst snd]; try by run_done.
  destruct f3 as [c3|]; cbn [fst snd]; try by run_done.
  destruct (lib_savefig L _ c3 _); cbn [fst snd]; try by run_done.
  destruct f4 as [s4|]; cbn [fst snd]; try by run_done.
  destruct (lib_chart_save L _ s4 _); cbn [fst snd]; try by run_done.
  destruct f5 as [s5|]; cbn [fst snd]; try by run_done.
  destruct (lib_chart_save L _ s5 _); cbn [fst snd]; by run_done.
Qed.

(** [main] as the chain of its stages. *)
Lemma main_eq input out_dir w :
  main L input out_dir w =
  match ensure_dir L out_dir w with
  | (inl e, w1) => (inl e, w1)
  | (inr _, w1) =>
      match load L input w1 with
      | (inl e, w2) => (inl e, w2)
      | (inr train_df, w2) =>
          match figures L train_df w2 with
          | (inl e, w3) => (inl e, w3)
          | (inr figs, w3) =>
              if has_none figs then (inl (AssertionError assert_msg), w3)
              else save_all L out_dir figs w3
          end
      end
  end.
Proof.
  unfold main, bind.
  destruct (ensure_dir L out_dir w) as [[e|[]] w1]; [done|].
  destruct (load L input w1) as [[e|df] w2]; [done|].
  destruct (figures L df w2) as [[e|figs] w3]; [done|].
  rewrite check_eq. by destruct (has_none figs).
Qed.

End Stages.

(** ** The files that are written *)

Lemma figures_accepted L input df0 w :
  accepted L input df0 -> well_formed df0 ->
  exists figs w',
    figures L (rename rename_dict (normalize_in df0)) w = (inr figs, w') /\
    has_none figs = false /\ w_files w' = w_files w /\
    w_stdout w' = w_stdout w /\
    saved_paths (w_trace w') = saved_paths (w_trace w).
Proof.
  intros (_ & H1 & H2 & (cor & Hcor & H3) & H4 & H5 & _) [_ Hnd].
  unfold figures, alt_chart, sns_heatmap, bind, lift, tell, raise, ret.
  rewrite H1, H2, Hcor, H3, (cat_stats_rows _ Hnd), H4, H5.
  do 2 eexists. split; [reflexivity|].
  split; [done|]. split; [done|]. split; [done|]. by simpl_trace.
Qed.

Lemma save_all_accepted L input df0 out_dir figs w :
  accepted L input df0 -> has_none figs = false ->
  exists w',
    save_all L out_dir figs w = (inr tt, w') /\
    saved_paths (w_trace w')
    = saved_paths (w_trace w) ++ ((fun n => out_dir +:+ n) <$> out_names) /\
    (forall name, name ∈ out_names -> is_Some (w_files w' !! (out_dir +:+ name))) /\
    (forall p, p ∉ ((fun n => out_dir +:+ n) <$> out_names) ->
               w_files w' !! p = w_files w !! p) /\
    w_stdout w'
    = w_stdout w ++ ["EDA reports successfully stored in: " +:+ " " +:+ out_dir].
Proof.
  intros (_ & _ & _ & _ & _ & _ & He & Hs & Hf) Hnone.
  destruct figs as [[s1|] [s2|] [c3|] table [s4|] [s5|]]; try discriminate Hnone.
  unfold save_all, dfi_export, chart_save, savefig, print, bind, raise, ret.
  cbn [catfeatures_stats target_class_imbalance numeric_feat_dist
       numeric_feat_corr cat_feat_churn_dist cat_feat_2dhist].
  rewrite He, !Hs, Hf, !Hs.
  eexists. split; [reflexivity|].
  split; [by simpl_trace|]. split; [|split; [|done]].
  - intros name Hin. cbn [w_files write_file write_stdout].
    rewrite !lookup_insert_is_Some'.
    unfold out_names in Hin.
    repeat (apply elem_of_cons in Hin as [->|Hin]; [tauto|]).
    by apply elem_of_nil in Hin.
  - intros q Hq. cbn [w_files write_file write_stdout].
    unfold out_names in Hq. rewrite !fmap_cons in Hq.
    rewrite !not_elem_of_cons in Hq. destruct Hq as (?&?&?&?&?&?&_).
    by rewrite !lookup_insert_ne by done.
Qed.

(** C1, as the claim states it, fails: on a run where every library call
    succeeds, [main] returns and has written six files, not seven. *)
Lemma C1_seven_files_counterexample :
  ~ (forall L input out_dir w df0,
        accepted L input df0 -> well_formed df0 ->
        exists w',
          main L input out_dir w = (inr tt, w') /\
          length (saved_paths (w_trace w')) = (length (saved_paths (w_trace w)) + 7)%nat).
Proof.
  intros H.
  destruct (H (good_libs sample_df) "data.csv" "results/" empty_world sample_df)
    as (w' & Hrun & Hlen).
  - repeat split; try done. by exists [].
  - split; refine (bool_decide_unpack _ _); by vm_compute.
  - vm_compute in Hrun. injection Hrun as <-. vm_compute in Hlen. discriminate Hlen.
Qed.

(** C1, amended: when the input parses to a frame with a 'Churn' column whose
    object columns have distinct labels once renamed, and the libraries accept
    it, [main] returns without an error and has written exactly six files, in
    this order: the table, then the figures 1 to 5.  Each path is [out_dir]
    followed by the fixed name; no other file is touched, and the last line
    printed reports the directory. *)
Theorem C1_six_files L input out_dir w df0 :
  accepted L input df0 -> well_formed df0 ->
  exists w',
    main L input out_dir w = (inr tt, w') /\
    saved_paths (w_trace w')
    = saved_paths (w_trace w) ++ ((fun n => out_dir +:+ n) <$> out_names) /\
    length out_names = 6%nat /\
    (forall name, name ∈ out_names -> is_Some (w_files w' !! (out_dir +:+ name))) /\
    (forall p, p ∉ ((fun n => out_dir +:+ n) <$> out_names) ->
               w_files w' !! p = w_files w !! p) /\
    last (w_stdout w')
    = Some ("EDA reports successfully stored in: " +:+ " " +:+ out_dir).
Proof.
  intros Hacc Hwf. rewrite main_eq.
  destruct (ensure_dir_returns L out_dir w) as (w1 & -> & (Hf1 & Hs1 & _) & _).
  rewrite load_eq.
  destruct Hacc as [Hread Hrest]. rewrite Hread.
  rewrite (wrangle_total df0) by apply Hwf.
  assert (accepted L input df0) as Hacc by by split.
  destruct (figures_accepted L input df0 (log (ReadCsv input) w1) Hacc Hwf)
    as (figs & w3 & -> & Hnone & Hf3 & _ & Hs3).
  rewrite Hnone.
  destruct (save_all_accepted L input df0 out_dir figs w3 Hacc Hnone)
    as (w4 & -> & Hs4 & Hsome & Hkeep & Hout).
  exists w4. split; [done|]. split.
  { rewrite Hs4, Hs3. simpl_trace. by rewrite Hs1. }
  split; [done|]. split; [done|]. split.
  { intros q Hq. rewrite (Hkeep q Hq), Hf3. simpl. by rewrite Hf1. }
  rewrite Hout. apply last_snoc.
Qed.

Lemma C1_six_files_witness :
  exists w',
    main (good_libs sample_df) "data.csv" "results/" empty_world = (inr tt, w') /\
    saved_paths (w_trace w')
    = [ "results/table_1_cat_unique_values.png";
        "results/figure_1_class_imbalance.png";
        "results/figure_2_numeric_feat_dist.png";
        "results/figure_3_numeric_feat_corr.png";
        "results/figure_4_cat_feat_churn_dist.png";
        "results/figure_5_cat_feat_2dhist.png" ].
Proof.
  destruct (C1_six_files (good_libs sample_df) "data.csv" "results/" empty_world
              sample_df) as (w' & Hrun & Hsaved & _).
  - repeat split; try done. by exists [].
  - split; refine (bool_decide_unpack _ _); by vm_compute.
  - exists w'. split; [exact Hrun|exact Hsaved].
Defined.

(** ** Paths *)

Lemma append_nil b : EmptyString +:+ b = b.
Proof. reflexivity. Qed.

Lemma append_cons c a b : String c a +:+ b = String c (a +:+ b).
Proof. reflexivity. Qed.

Lemma path_split_cons c p :
  path_split (String c p) =
  match fst (path_split p) with
  | EmptyString =>
      if is_sep c then (String c EmptyString, snd (path_split p))
      else (EmptyString, String c (snd (path_split p)))
  | String _ _ => (String c (fst (path_split p)), snd (path_split p))
  end.
Proof. cbn [path_split]. by destruct (path_split p). Qed.

Lemma path_split_no_sep t : has_sep t = false -> path_split t = (EmptyString, t).
Proof.
  induction t as [|c t IH]; [done|].
  cbn [has_sep]. intros [Hc Ht]%orb_false_elim.
  by rewrite path_split_cons, (IH Ht), Hc.
Qed.

(** A name without a separator that is put after a path stays in the file
    name of the path. *)
Lemma path_split_app p t :
  has_sep t = false ->
  path_split (p +:+ t) = (fst (path_split p), snd (path_split p) +:+ t).
Proof.
  intros Ht. induction p as [|c p IH].
  - rewrite append_nil. by apply path_split_no_sep.
  - rewrite append_cons, !path_split_cons, IH. cbn [fst snd].
    destruct (fst (path_split p)); [|done]. by destruct (is_sep c).
Qed.

Lemma path_split_concat p : fst (path_split p) +:+ snd (path_split p) = p.
Proof.
  induction p as [|c p IH]; [done|].
  rewrite path_split_cons.
  destruct (fst (path_split p)) eqn:E.
  - rewrite append_nil in IH. rewrite IH. by destruct (is_sep c).
  - cbn [fst snd]. by rewrite append_cons, IH.
Qed.

Lemma path_split_snd_empty p :
  snd (path_split p) = EmptyString -> p = EmptyString \/ ends_with_sep p = true.
Proof.
  induction p as [|c p IH]; [by left|].
  rewrite path_split_cons. intros Hs. right.
  pose proof (path_split_concat p) as Hp.
  destruct (fst (path_split p)) eqn:E.
  - rewrite append_nil in Hp. destruct (is_sep c) eqn:Hc; [|done].
    cbn [snd] in Hs. rewrite Hs in Hp. subst p. exact Hc.
  - cbn [snd] in Hs. destruct (IH Hs) as [->|Hends]; [done|].
    cbn [ends_with_sep]. by destruct p.
Qed.

(** A name without a separator that is put after a path and a separator is
    the file name, in the directory of that path. *)
Lemma path_split_into p t :
  has_sep t = false -> path_split (p +:+ "/" +:+ t) = (p +:+ "/", t).
Proof.
  intros Ht. induction p as [|c p IH].
  - rewrite !append_nil, append_cons, append_nil, path_split_cons.
    by rewrite (path_split_no_sep t Ht).
  - rewrite (append_cons c p ("/" +:+ t)), path_split_cons, IH. cbn [fst snd].
    destruct p; reflexivity.
Qed.

Lemma string_length_app a b :
  String.length (a +:+ b) = (String.length a + String.length b)%nat.
Proof.
  induction a as [|c a IH]; [done|].
  rewrite append_cons. cbn [String.length]. by rewrite IH.
Qed.

Lemma path_split_fst_length p :
  (String.length (fst (path_split p)) <= String.length p)%nat.
Proof.
  rewrite <- (path_split_concat p) at 2. rewrite string_length_app. lia.
Qed.

Lemma out_names_no_sep name : name ∈ out_names -> has_sep name = false.
Proof.
  unfold out_names. intros Hin.
  repeat (apply elem_of_cons in Hin as [->|Hin]; [done|]).
  by apply elem_of_nil in Hin.
Qed.

(** ** The run as a whole *)

Lemma has_none_true figs :
  has_none figs = true <->
  target_class_imbalance figs = None \/ numeric_feat_dist figs = None \/
  numeric_feat_corr figs = None \/ cat_feat_churn_dist figs = None \/
  cat_feat_2dhist figs = None.
Proof.
  destruct figs as [[?|] [?|] [?|] ? [?|] [?|]]; cbn; intuition congruence.
Qed.

Lemma has_none_false figs :
  has_none figs = false <->
  is_Some (target_class_imbalance figs) /\ is_Some (numeric_feat_dist figs) /\
  is_Some (numeric_feat_corr figs) /\ is_Some (cat_feat_churn_dist figs) /\
  is_Some (cat_feat_2dhist figs).
Proof.
  destruct figs as [[?|] [?|] [?|] ? [?|] [?|]]; cbn;
    split; try done; intros (?&?&?&?&?);
    repeat match goal with H : is_Some None |- _ => by destruct H end.
Qed.

(** Up to the assertions nothing is written. *)
Lemma before_check L input out_dir w w1 train_df w2 r w3 :
  ensure_dir L out_dir w = (inr tt, w1) ->
  load L input w1 = (inr train_df, w2) ->
  figures L train_df w2 = (r, w3) ->
  w_files w3 = w_files w /\
  saved_paths (w_trace w3) = saved_paths (w_trace w) /\
  extends w w1 /\ extends w1 w2 /\ extends w2 w3.
Proof.
  intros H1 H2 H3.
  destruct (ensure_dir_returns L out_dir w) as (w1' & H1' & (Hf1 & Hs1 & _) & He1).
  rewrite H1 in H1'. injection H1' as <-.
  destruct (load_quiet L input w1) as [(Hf2 & Hs2 & _) He2].
  rewrite H2 in Hf2, Hs2, He2. cbn [snd] in *.
  destruct (figures_effect L train_df w2) as (Hf3 & Hs3 & He3 & _).
  rewrite H3 in Hf3, Hs3, He3. cbn [snd] in *.
  split; [by rewrite Hf3, Hf2|]. split; [by rewrite Hs3, Hs2|]. done.
Qed.

(** Once the frame is read, what is in the trace and on the standard output
    stays there until [main] ends. *)
Lemma main_extends L input out_dir w :
  exists w1,
    ensure_dir L out_dir w = (inr tt, w1) /\ extends w w1 /\
    extends (log (ReadCsv input) w1) (snd (main L input out_dir w)).
Proof.
  destruct (ensure_dir_returns L out_dir w) as (w1 & H1 & _ & He1).
  exists w1. split; [done|]. split; [done|].
  rewrite main_eq, H1, load_eq.
  destruct (match lib_read_csv L w1 input with inl e => inl e | inr df0 => wrangle df0 end)
    as [e|train_df]; [apply extends_refl|].
  destruct (figures_effect L train_df (log (ReadCsv input) w1)) as (_ & _ & He3 & _).
  destruct (figures L train_df (log (ReadCsv input) w1)) as [[e|figs] w3];
    cbn [snd] in *; [done|].
  destruct (has_none figs); [done|].
  eapply extends_trans; [exact He3|]. apply save_all_effect.
Qed.

Lemma extends_trace w w' e : extends w w' -> e ∈ w_trace w -> e ∈ w_trace w'.
Proof. intros [[t ->] _] Hin. apply elem_of_app. by left. Qed.

Lemma extends_stdout w w' line : extends w w' -> line ∈ w_stdout w -> line ∈ w_stdout w'.
Proof. intros [_ [o ->]] Hin. apply elem_of_app. by left. Qed.

(** ** The order of the computations *)

(** C5, as the claim states it, fails: the table is computed after the heat
    map and before the two charts of the categorical features, not last. *)
Lemma C5_table_last_counterexample :
  ~ (forall L input out_dir w u,
        fst (main L input out_dir w) = inr u ->
        computed (w_trace (snd (main L input out_dir w)))
        = computed (w_trace w) ++ table_last_order).
Proof.
  intros H.
  specialize (H (good_libs sample_df) "data.csv" "results/" empty_world tt eq_refl).
  vm_compute in H. discriminate H.
Qed.

(** C5, amended: [main] computes its summaries in this order: the bar chart
    of the class counts, the histograms of the three numeric features, the
    heat map of the correlations, the table of the object columns, the bar
    charts of three categorical features, the 2D chart of twelve categorical
    features.  Every run computes a prefix of this list, and a run that
    returns computes all of it. *)
Theorem C5_computation_order L input out_dir w :
  code_order = [ ClassImbalance; NumericFeatDist; NumericFeatCorr; CatFeatStats;
                 CatFeatChurnDist; CatFeat2dHist ] /\
  (forall df, length (repeat (numeric_feat_dist_spec df)) = 3%nat /\
              length (repeat (cat_feat_churn_dist_spec df)) = 3%nat /\
              length (repeat (cat_feat_2dhist_spec df)) = 12%nat) /\
  (exists k,
      computed (w_trace (snd (main L input out_dir w)))
      = computed (w_trace w) ++ take k code_order) /\
  (forall u,
      fst (main L input out_dir w) = inr u ->
      computed (w_trace (snd (main L input out_dir w)))
      = computed (w_trace w) ++ code_order).
Proof.
  split; [done|]. split; [done|].
  assert (exists k,
      computed (w_trace (snd (main L input out_dir w)))
      = computed (w_trace w) ++ take k code_order /\
      (forall u, fst (main L input out_dir w) = inr u -> k = 6%nat)) as (k & Hk & Hret).
  { rewrite main_eq.
    destruct (ensure_dir_returns L out_dir w) as (w1 & -> & (_ & _ & Hc1) & _).
    destruct (load_quiet L input w1) as [(_ & _ & Hc2) _].
    destruct (load L input w1) as [[e|train_df] w2]; cbn [fst snd] in *.
    { exists 0%nat. split; [|done]. rewrite app_nil_r. congruence. }
    destruct (figures_effect L train_df w2) as (_ & _ & _ & k & Hk & Hret).
    destruct (figures L train_df w2) as [[e|figs] w3]; cbn [fst snd] in *.
    { exists k. split; [|done]. congruence. }
    specialize (Hret figs eq_refl). subst k.
    destruct (has_none figs); cbn [fst snd].
    { exists 6%nat. split; [|done]. rewrite Hk. congruence. }
    destruct (save_all_effect L out_dir figs w3) as (Hc4 & _).
    exists 6%nat. split; [|done]. rewrite Hc4, Hk. congruence. }
  split; [by exists k|].
  intros u Hu. specialize (Hret u Hu). subst k. by rewrite Hk.
Qed.

Lemma C5_computation_order_witness :
  computed (w_trace (snd (main (good_libs sample_df) "data.csv" "results/" empty_world)))
  = code_order.
Proof.
  destruct (C5_computation_order (good_libs sample_df) "data.csv" "results/" empty_world)
    as (_ & _ & _ & H).
  exact (H tt eq_refl).
Defined.

(** ** Errors *)

Lemma returns_cases o : returns o -> o = ReturnsNone \/ o = ReturnsObject.
Proof. intros H. destruct o as [e| |]; [by destruct (H e)|by left|by right]. Qed.

(** The figures stage when the first [k] of its calls return: what the first
    call that raises makes of it. *)
Lemma figures_raises L train_df w e :
  (lib_alt_chart L (class_imbalance_spec train_df) = Raises e \/
   returns (lib_alt_chart L (class_imbalance_spec train_df)) /\
   (lib_alt_chart L (numeric_feat_dist_spec train_df) = Raises e \/
    returns (lib_alt_chart L (numeric_feat_dist_spec train_df)) /\
    (lib_corr L train_df = inl e \/
     exists cor,
       lib_corr L train_df = inr cor /\
       (lib_heatmap L cor = Raises e \/
        returns (lib_heatmap L cor) /\
        (cat_stats train_df = inl e \/
         (exists table, cat_stats train_df = inr table) /\
         (lib_alt_chart L (cat_feat_churn_dist_spec train_df) = Raises e \/
          returns (lib_alt_chart L (cat_feat_churn_dist_spec train_df)) /\
          lib_alt_chart L (cat_feat_2dhist_spec train_df) = Raises e)))))) ->
  fst (figures L train_df w) = inl e.
Proof.
  unfold figures, alt_chart, sns_heatmap, bind, lift, tell, raise, ret.
  intros [->|[[->| ->]%returns_cases H]]; try done.
  all: destruct H as [->|[[->| ->]%returns_cases H]]; try done.
  all: destruct H as [->|(cor & -> & H)]; try done.
  all: destruct H as [->|[[->| ->]%returns_cases H]]; try done.
  all: destruct H as [->|[[table ->] H]]; try done.
  all: destruct H as [->|[[->| ->]%returns_cases ->]]; done.
Qed.

(** C6: when the output directory is absent and cannot be made, the error is
    caught, the message is printed and [main] goes on to read the input.  No
    other error is caught.  An error of [read_csv] and the [KeyError] of a
    frame without a 'Churn' column end [main].  In the figures stage, the
    first call that raises, be it one of the four chart constructions, the
    correlation, the heat map or the loop of the table, ends [main] with its
    error.  In the saving stage, the first of the six writes that fails ends
    [main] with its error, in the world the writes before it left. *)
Theorem C6_error_handling L input out_dir w :
  (forall e,
      out_dir ∉ w_dirs w -> w_files w !! out_dir = None ->
      lib_makedirs L w out_dir = Some e ->
      ensure_dir L out_dir w
      = (inr tt, write_stdout makedirs_msg (log (Makedirs out_dir) w)) /\
      makedirs_msg ∈ w_stdout (snd (main L input out_dir w)) /\
      ReadCsv input ∈ w_trace (snd (main L input out_dir w))) /\
  (forall w1,
      ensure_dir L out_dir w = (inr tt, w1) ->
      (forall e,
          lib_read_csv L w1 input = inl e ->
          main L input out_dir w = (inl e, log (ReadCsv input) w1)) /\
      (forall df0,
          lib_read_csv L w1 input = inr df0 -> "Churn" ∉ columns df0 ->
          main L input out_dir w = (inl (KeyError "Churn"), log (ReadCsv input) w1)) /\
      (forall df0 train_df,
          lib_read_csv L w1 input = inr df0 -> wrangle df0 = inr train_df ->
          (forall e,
              lib_alt_chart L (class_imbalance_spec train_df) = Raises e ->
              fst (main L input out_dir w) = inl e) /\
          (forall e,
              returns (lib_alt_chart L (class_imbalance_spec train_df)) ->
              lib_alt_chart L (numeric_feat_dist_spec train_df) = Raises e ->
              fst (main L input out_dir w) = inl e) /\
          (forall e,
              returns (lib_alt_chart L (class_imbalance_spec train_df)) ->
              returns (lib_alt_chart L (numeric_feat_dist_spec train_df)) ->
              lib_corr L train_df = inl e ->
              fst (main L input out_dir w) = inl e) /\
          (forall cor,
              returns (lib_alt_chart L (class_imbalance_spec train_df)) ->
              returns (lib_alt_chart L (numeric_feat_dist_spec train_df)) ->
              lib_corr L train_df = inr cor ->
              (forall e,
                  lib_heatmap L cor = Raises e ->
                  fst (main L input out_dir w) = inl e) /\
              (forall e,
                  returns (lib_heatmap L cor) ->
                  cat_stats train_df = inl e ->
                  fst (main L input out_dir w) = inl e) /\
              (forall table,
                  returns (lib_heatmap L cor) ->
                  cat_stats train_df = inr table ->
                  (forall e,
                      lib_alt_chart L (cat_feat_churn_dist_spec train_df) = Raises e ->
                      fst (main L input out_dir w) = inl e) /\
                  (forall e,
                      returns (lib_alt_chart L (cat_feat_churn_dist_spec train_df)) ->
                      lib_alt_chart L (cat_feat_2dhist_spec train_df) = Raises e ->
                      fst (main L input out_dir w) = inl e))) /\
          (forall s1 s2 c3 table s4 s5 w3,
              figures L train_df (log (ReadCsv input) w1)
              = (inr {| target_class_imbalance := Some s1;
                        numeric_feat_dist := Some s2;
                        numeric_feat_corr := Some c3;
                        catfeatures_stats := table;
                        cat_feat_churn_dist := Some s4;
                        cat_feat_2dhist := Some s5 |}, w3) ->
              let p0 := out_dir +:+ "table_1_cat_unique_values.png" in
              let p1 := out_dir +:+ "figure_1_class_imbalance.png" in
              let p2 := out_dir +:+ "figure_2_numeric_feat_dist.png" in
              let p3 := out_dir +:+ "figure_3_numeric_feat_corr.png" in
              let p4 := out_dir +:+ "figure_4_cat_feat_churn_dist.png" in
              let p5 := out_dir +:+ "figure_5_cat_feat_2dhist.png" in
              let w4 := write_file p0 (TableImage table) w3 in
              let w5 := write_file p1 (ChartImage s1 3) w4 in
              let w6 := write_file p2 (ChartImage s2 3) w5 in
              let w7 := write_file p3 (HeatmapImage c3) w6 in
              let w8 := write_file p4 (ChartImage s4 3) w7 in
              (forall e,
                  lib_dfi_export L w3 table p0 = Some e ->
                  main L input out_dir w = (inl e, w3)) /\
              (lib_dfi_export L w3 table p0 = None ->
               (forall e,
                   lib_chart_save L w4 s1 p1 = Some e ->
                   main L input out_dir w = (inl e, w4)) /\
               (lib_chart_save L w4 s1 p1 = None ->
                (forall e,
                    lib_chart_save L w5 s2 p2 = Some e ->
                    main L input out_dir w = (inl e, w5)) /\
                (lib_chart_save L w5 s2 p2 = None ->
                 (forall e,
                     lib_savefig L w6 c3 p3 = Some e ->
                     main L input out_dir w = (inl e, w6)) /\
                 (lib_savefig L w6 c3 p3 = None ->
                  (forall e,
                      lib_chart_save L w7 s4 p4 = Some e ->
                      main L input out_dir w = (inl e, w7)) /\
                  (lib_chart_save L w7 s4 p4 = None ->
                   forall e,
                     lib_chart_save L w8 s5 p5 = Some e ->
                     main L input out_dir w = (inl e, w8))))))))).
Proof.
  split.
  - intros e Hdir Hfile Hmk.
    assert (ensure_dir L out_dir w
            = (inr tt, write_stdout makedirs_msg (log (Makedirs out_dir) w))) as Hens.
    { unfold ensure_dir, bind, os_path_exists, try_except, os_makedirs, print.
      rewrite (bool_decide_eq_false_2 _ Hdir), Hfile.
      cbn [orb negb]. rewrite bool_decide_eq_false_2 by by intros [? ?].
      cbn [negb]. by rewrite Hmk. }
    split; [done|].
    destruct (main_extends L input out_dir w) as (w1 & H1 & _ & Hext).
    rewrite Hens in H1. injection H1 as <-. split.
    + eapply extends_stdout; [exact Hext|]. simpl. apply elem_of_app. right. left.
    + eapply extends_trace; [exact Hext|]. simpl. apply elem_of_app. right. left.
  - intros w1 H1. split; [|split].
    + intros e He. by rewrite main_eq, H1, load_eq, He.
    + intros df0 Hdf Hn. by rewrite main_eq, H1, load_eq, Hdf, wrangle_missing.
    + intros df0 train_df Hdf Hwr.
      assert (forall e, fst (figures L train_df (log (ReadCsv input) w1)) = inl e ->
                        fst (main L input out_dir w) = inl e) as Hfig.
      { intros e He. rewrite main_eq, H1, load_eq, Hdf, Hwr.
        destruct (figures L train_df (log (ReadCsv input) w1)) as [[e'|figs] w3];
          simpl in *; [by injection He as ->|discriminate He]. }
      split; [|split; [|split; [|split]]].
      * intros e He. apply Hfig, figures_raises. by left.
      * intros e R1 He. apply Hfig, figures_raises. right. split; [done|]. by left.
      * intros e R1 R2 He. apply Hfig, figures_raises.
        right. split; [done|]. right. split; [done|]. by left.
      * intros cor R1 R2 Hcor. split; [|split].
        -- intros e He. apply Hfig, figures_raises.
           right. split; [done|]. right. split; [done|]. right.
           exists cor. split; [done|]. by left.
        -- intros e R3 He. apply Hfig, figures_raises.
           right. split; [done|]. right. split; [done|]. right.
           exists cor. split; [done|]. right. split; [done|]. by left.
        -- intros table R3 Ht. split.
           ++ intros e He. apply Hfig, figures_raises.
              right. split; [done|]. right. split; [done|]. right.
              exists cor. split; [done|]. right. split; [done|]. right.
              split; [by exists table|]. by left.
           ++ intros e R4 He. apply Hfig, figures_raises.
              right. split; [done|]. right. split; [done|]. right.
              exists cor. split; [done|]. right. split; [done|]. right.
              split; [by exists table|]. right. by split.
      * intros s1 s2 c3 table s4 s5 w3 H3 p0 p1 p2 p3 p4 p5 w4 w5 w6 w7 w8.
        assert (main L input out_dir w
                = save_all L out_dir
                    {| target_class_imbalance := Some s1; numeric_feat_dist := Some s2;
                       numeric_feat_corr := Some c3; catfeatures_stats := table;
                       cat_feat_churn_dist := Some s4; cat_feat_2dhist := Some s5 |} w3)
          as ->.
        { by rewrite main_eq, H1, load_eq, Hdf, Hwr, H3. }
        unfold save_all, bind, dfi_export, chart_save, savefig.
        cbn [catfeatures_stats target_class_imbalance numeric_feat_dist
             numeric_feat_corr cat_feat_churn_dist cat_feat_2dhist].
        fold p0 p1 p2 p3 p4 p5.
        split; [by intros e ->|]. intros ->. fold w4.
        split; [by intros e ->|]. intros ->. fold w5.
        split; [by intros e ->|]. intros ->. fold w6.
        split; [by intros e ->|]. intros ->. fold w7.
        split; [by intros e ->|]. intros ->. fold w8.
        by intros e ->.
Qed.

Lemma C6_error_handling_witness :
  (makedirs_msg ∈ w_stdout (snd (main (no_mkdir_libs sample_df) "data.csv" "results/"
                                   empty_world)) /\
   fst (main (no_mkdir_libs sample_df) "data.csv" "results/" empty_world) = inr tt) /\
  fst (main bad_csv_libs "data.csv" "results/" empty_world) = inl parser_error /\
  fst (main (good_libs [("tenure", IntCol [1])]) "data.csv" "results/" empty_world)
  = inl (KeyError "Churn") /\
  fst (main (no_chart_libs sample_df) "data.csv" "results/" empty_world)
  = inl schema_error /\
  fst (main (read_only_libs sample_df) "data.csv" "results/" empty_world)
  = inl permission_denied /\
  (fst (main (no_savefig_libs sample_df) "data.csv" "results/" empty_world)
   = inl permission_denied /\
   saved_paths (w_trace (snd (main (no_savefig_libs sample_df) "data.csv" "results/"
                                empty_world)))
   = [ "results/table_1_cat_unique_values.png";
       "results/figure_1_class_imbalance.png";
       "results/figure_2_numeric_feat_dist.png" ]).
Proof.
  split; [split|split; [|split; [|split; [|split]]]].
  - pose proof (C6_error_handling (no_mkdir_libs sample_df) "data.csv" "results/"
                  empty_world) as [H _].
    destruct (H permission_denied) as (_ & Hmsg & _); [|done|done|exact Hmsg].
    apply not_elem_of_empty.
  - reflexivity.
  - pose proof (C6_error_handling bad_csv_libs "data.csv" "results/" empty_world)
      as [_ H].
    destruct (H _ eq_refl) as (Hread & _).
    by rewrite (Hread parser_error eq_refl).
  - pose proof (C6_error_handling (good_libs [("tenure", IntCol [1])]) "data.csv"
                  "results/" empty_world) as [_ H].
    destruct (H _ eq_refl) as (_ & Hkey & _).
    rewrite (Hkey [("tenure", IntCol [1])] eq_refl); [done|].
    refine (bool_decide_unpack _ _). by vm_compute.
  - pose proof (C6_error_handling (no_chart_libs sample_df) "data.csv" "results/"
                  empty_world) as [_ H].
    destruct (H _ eq_refl) as (_ & _ & Hrest).
    destruct (Hrest sample_df _ eq_refl eq_refl) as (Hchart & _).
    exact (Hchart schema_error eq_refl).
  - pose proof (C6_error_handling (read_only_libs sample_df) "data.csv" "results/"
                  empty_world) as [_ H].
    destruct (H _ eq_refl) as (_ & _ & Hrest).
    destruct (Hrest sample_df _ eq_refl eq_refl) as (_ & _ & _ & _ & Hsave).
    destruct (Hsave _ _ _ _ _ _ _ eq_refl) as (Hexp & _).
    by rewrite (Hexp permission_denied eq_refl).
  - pose proof (C6_error_handling (no_savefig_libs sample_df) "data.csv" "results/"
                  empty_world) as [_ H].
    destruct (H _ eq_refl) as (_ & _ & Hrest).
    destruct (Hrest sample_df _ eq_refl eq_refl) as (_ & _ & _ & _ & Hsave).
    destruct (Hsave _ _ _ _ _ _ _ eq_refl) as (_ & Hw1).
    destruct (Hw1 eq_refl) as (_ & Hw2). destruct (Hw2 eq_refl) as (_ & Hw3).
    destruct (Hw3 eq_refl) as (Hfig & _).
    rewrite (Hfig permission_denied eq_refl). split; reflexivity.
Defined.

(** ** The assertions on the figures *)

(** C7: once the five figures are built, [main] asserts that each of them is
    not [None] before it writes anything: no file has been written when the
    assertions are reached; when one of the five is [None], [main] ends with
    the assertion error "Output figure is empty", in the world the figures
    stage left; when none is, [main] goes on with the writes. *)
Theorem C7_assertions L input out_dir w w1 train_df w2 figs w3 :
  ensure_dir L out_dir w = (inr tt, w1) ->
  load L input w1 = (inr train_df, w2) ->
  figures L train_df w2 = (inr figs, w3) ->
  saved_paths (w_trace w3) = saved_paths (w_trace w) /\
  (target_class_imbalance figs = None \/ numeric_feat_dist figs = None \/
   numeric_feat_corr figs = None \/ cat_feat_churn_dist figs = None \/
   cat_feat_2dhist figs = None ->
   main L input out_dir w = (inl (AssertionError "Output figure is empty"), w3)) /\
  (is_Some (target_class_imbalance figs) /\ is_Some (numeric_feat_dist figs) /\
   is_Some (numeric_feat_corr figs) /\ is_Some (cat_feat_churn_dist figs) /\
   is_Some (cat_feat_2dhist figs) ->
   main L input out_dir w = save_all L out_dir figs w3).
Proof.
  intros H1 H2 H3.
  destruct (before_check L input out_dir w w1 train_df w2 _ w3 H1 H2 H3)
    as (_ & Hs & _).
  split; [done|]. split.
  - intros Hnone%has_none_true. by rewrite main_eq, H1, H2, H3, Hnone.
  - intros Hall%has_none_false. by rewrite main_eq, H1, H2, H3, Hall.
Qed.

Lemma C7_assertions_witness :
  main (no_heatmap_libs sample_df) "data.csv" "results/" empty_world
  = (inl (AssertionError "Output figure is empty"),
     snd (main (no_heatmap_libs sample_df) "data.csv" "results/" empty_world)).
Proof.
  set (L := no_heatmap_libs sample_df).
  destruct (ensure_dir L "results/" empty_world) as [r1 w1] eqn:H1.
  destruct (load L "data.csv" w1) as [r2 w2] eqn:H2.
  vm_compute in H1. injection H1 as <- <-.
  vm_compute in H2. injection H2 as <- <-.
  destruct (C7_assertions L "data.csv" "results/" empty_world _ _ _ _ _
              eq_refl eq_refl eq_refl) as (_ & Hraise & _).
  rewrite Hraise; [reflexivity|].
  right. right. by left.
Defined.

(** C10: when one of the five figures is [None], [main] ends with the
    assertion error and has written nothing: the files are those of the
    start, and no write is in the trace. *)
Theorem C10_no_partial_output L input out_dir w w1 train_df w2 figs w3 :
  ensure_dir L out_dir w = (inr tt, w1) ->
  load L input w1 = (inr train_df, w2) ->
  figures L train_df w2 = (inr figs, w3) ->
  target_class_imbalance figs = None \/ numeric_feat_dist figs = None \/
  numeric_feat_corr figs = None \/ cat_feat_churn_dist figs = None \/
  cat_feat_2dhist figs = None ->
  fst (main L input out_dir w) = inl (AssertionError assert_msg) /\
  w_files (snd (main L input out_dir w)) = w_files w /\
  saved_paths (w_trace (snd (main L input out_dir w))) = saved_paths (w_trace w) /\
  (forall name, name ∈ out_names ->
     w_files (snd (main L input out_dir w)) !! (out_dir +:+ name)
     = w_files w !! (out_dir +:+ name)).
Proof.
  intros H1 H2 H3 Hnone%has_none_true.
  destruct (before_check L input out_dir w w1 train_df w2 _ w3 H1 H2 H3)
    as (Hf & Hs & _).
  rewrite main_eq, H1, H2, H3, Hnone. cbn [fst snd].
  split; [done|]. split; [done|]. split; [done|].
  intros name _. by rewrite Hf.
Qed.

Lemma C10_no_partial_output_witness :
  fst (main (no_heatmap_libs sample_df) "data.csv" "results/" empty_world)
  = inl (AssertionError assert_msg) /\
  w_files (snd (main (no_heatmap_libs sample_df) "data.csv" "results/" empty_world)) = ∅.
Proof.
  set (L := no_heatmap_libs sample_df).
  destruct (ensure_dir L "results/" empty_world) as [r1 w1] eqn:H1.
  destruct (load L "data.csv" w1) as [r2 w2] eqn:H2.
  vm_compute in H1. injection H1 as <- <-.
  vm_compute in H2. injection H2 as <- <-.
  destruct (C10_no_partial_output L "data.csv" "results/" empty_world _ _ _ _ _
              eq_refl eq_refl eq_refl) as (Herr & Hfiles & _).
  - right. right. by left.
  - split; [exact Herr|exact Hfiles].
Defined.

(** * Further properties of the script *)

(** ** Running the wrangling again *)

Lemma py_eq_normalize_val v b : py_eq (normalize_val v) (PBool b) = false.
Proof.
  unfold normalize_val, replace_val.
  destruct (py_eq v (PBool true)) eqn:Ht; [by destruct b|].
  destruct (py_eq v (PBool false)) eqn:Hf; [by destruct b|].
  by destruct b.
Qed.

Lemma existsb_py_eq_normalize l b :
  existsb (fun v => py_eq v (PBool b)) (normalize_val <$> l) = false.
Proof.
  induction l as [|x l IH]; [done|].
  rewrite fmap_cons. cbn [existsb]. by rewrite py_eq_normalize_val, IH.
Qed.

Lemma replace_no_match a b s :
  existsb (fun v => py_eq v a) (values s) = false -> replace a b s = s.
Proof. intros H. destruct s; simpl in *; by rewrite ?H. Qed.

Lemma normalize_series_idem s :
  normalize_series (normalize_series s) = normalize_series s.
Proof.
  assert (forall b, existsb (fun v => py_eq v (PBool b)) (values (normalize_series s))
                    = false \/ holds_bool s = false) as H.
  { intros b. rewrite values_normalize_series. destruct (holds_bool s); [|by right].
    left. apply existsb_py_eq_normalize. }
  destruct (holds_bool s) eqn:Hs.
  - unfold normalize_series at 1.
    destruct (H true) as [Ht|]; [|done]. destruct (H false) as [Hf|]; [|done].
    rewrite (replace_no_match _ _ _ Ht). by apply replace_no_match.
  - unfold normalize_series. by rewrite !(replace_numeric _ _ s Hs).
Qed.

Lemma rename_values_not_keys :
  Forall (fun p => rename_dict !! snd p = None /\ snd p <> "Churn") rename_pairs.
Proof. refine (bool_decide_unpack _ _). by vm_compute. Qed.

Lemma rename_label_idem name :
  rename_label rename_dict (rename_label rename_dict name)
  = rename_label rename_dict name.
Proof.
  destruct (rename_dict !! name) as [dst|] eqn:E.
  - assert (rename_label rename_dict name = dst) as ->
      by (unfold rename_label; by rewrite E).
    apply rename_dict_lookup in E.
    pose proof (proj1 (Forall_forall _ _) rename_values_not_keys _ E) as [Hk _].
    cbn [snd] in Hk. unfold rename_label. by rewrite Hk.
  - assert (rename_label rename_dict name = name) as ->
      by (unfold rename_label; by rewrite E).
    unfold rename_label. by rewrite E.
Qed.

Lemma rename_label_is_churn name :
  rename_label rename_dict name = "Churn" <-> name = "Churn".
Proof.
  split; [|intros ->; apply rename_label_churn].
  unfold rename_label. destruct (rename_dict !! name) as [dst|] eqn:E;
    intros H; simpl in H; [|done].
  subst dst. apply rename_dict_lookup in E.
  by pose proof (proj1 (Forall_forall _ _) rename_values_not_keys _ E) as [_ Hc].
Qed.

Lemma has_label_rename name (s : Series) :
  has_label "Churn" (rename_label rename_dict name, s) = has_label "Churn" (name, s).
Proof.
  destruct (has_label "Churn" (name, s)) eqn:E.
  - apply has_label_true in E as ->. apply has_label_true, rename_label_churn.
  - apply has_label_false in E. apply has_label_false.
    by rewrite rename_label_is_churn.
Qed.

Lemma columns_rename_normalize df :
  "Churn" ∈ columns df -> "Churn" ∈ columns (rename rename_dict (normalize_in df)).
Proof.
  intros (i & Hi)%list_elem_of_lookup_1. unfold columns in Hi.
  rewrite list_lookup_fmap in Hi. destruct (df !! i) as [[n s]|] eqn:E; [|done].
  simpl in Hi. injection Hi as ->.
  eapply elem_of_columns. erewrite rename_lookup.
  - by rewrite rename_label_churn.
  - by apply normalize_in_lookup_churn.
Qed.

Lemma rename_normalize_in df :
  rename rename_dict (normalize_in df) = wrangle_col <$> df.
Proof.
  unfold rename, normalize_in. rewrite <- list_fmap_compose.
  apply list_fmap_ext. intros i [n s] _. unfold wrangle_col. cbn [compose].
  by destruct (has_label "Churn" (n, s)).
Qed.

Lemma wrangle_col_idem c : wrangle_col (wrangle_col c) = wrangle_col c.
Proof.
  destruct c as [n s]. unfold wrangle_col. cbn [fst snd].
  rewrite has_label_rename, rename_label_idem.
  unfold has_label. cbn [fst snd].
  destruct (String.eqb n "Churn"); [|done].
  by rewrite normalize_series_idem.
Qed.

(** X1: the wrangling of lines 42 to 59 changes nothing when it is run on a
    frame that it has produced. *)
Theorem X1_wrangle_idempotent (df0 df : DataFrame) :
  wrangle df0 = inr df -> wrangle df = inr df.
Proof.
  intros [Hin ->]%wrangle_inr.
  rewrite wrangle_total by by apply columns_rename_normalize.
  f_equal. rewrite !rename_normalize_in, <- list_fmap_compose.
  apply list_fmap_ext. intros i c _. apply wrangle_col_idem.
Qed.

Lemma X1_wrangle_idempotent_witness :
  wrangle (rename rename_dict (normalize_in sample_df))
  = inr (rename rename_dict (normalize_in sample_df)).
Proof. apply (X1_wrangle_idempotent sample_df). reflexivity. Defined.

(** ** The label column after the normalisation *)

Lemma wrangle_lookup_churn (df0 df : DataFrame) i s :
  wrangle df0 = inr df -> df !! i = Some ("Churn", s) ->
  exists s0, df0 !! i = Some ("Churn", s0) /\ s = normalize_series s0.
Proof.
  intros [_ ->]%wrangle_inr. rewrite rename_normalize_in, list_lookup_fmap.
  destruct (df0 !! i) as [[n s0]|]; [|done].
  unfold wrangle_col. cbn [fmap option_fmap option_map fst snd].
  intros [= Hn <-]. apply rename_label_is_churn in Hn as ->.
  exists s0. split; [done|].
  assert (has_label "Churn" ("Churn", s0) = true) as -> by by apply has_label_true.
  done.
Qed.

Lemma values_numeric_not_bool s :
  holds_bool s = false -> Forall (fun v => is_bool v = false) (values s).
Proof.
  destruct s as [|l|l|]; try done; intros _; simpl; apply Forall_fmap, Forall_forall.
  - done.
  - by intros [q|].
Qed.

(** X2: whatever the input holds, no boolean is left in the label column of
    the processed frame. *)
Theorem X2_no_boolean_label (df0 df : DataFrame) i s :
  wrangle df0 = inr df -> df !! i = Some ("Churn", s) ->
  Forall (fun v => is_bool v = false) (values s).
Proof.
  intros Hw Hi. destruct (wrangle_lookup_churn df0 df i s Hw Hi) as (s0 & _ & ->).
  rewrite values_normalize_series. destruct (holds_bool s0) eqn:Hs.
  - apply Forall_fmap, Forall_forall. intros v _. apply normalize_val_not_bool.
  - by apply values_numeric_not_bool.
Qed.

Lemma X2_no_boolean_label_witness :
  Forall (fun v => is_bool v = false)
         (values (ObjCol [PStr "True"; PStr "No"; PStr "False"; PNaN])).
Proof.
  apply (X2_no_boolean_label
           [("Churn", ObjCol [PBool true; PStr "No"; PInt 0; PNaN])]
           [("Churn", ObjCol [PStr "True"; PStr "No"; PStr "False"; PNaN])] 0%nat);
    reflexivity.
Defined.

Lemma normalize_val_bool_str (l : list bool) :
  normalize_val <$> (PBool <$> l) = bool_str <$> l.
Proof.
  rewrite <- list_fmap_compose. apply list_fmap_ext.
  intros i b _. apply normalize_val_bool.
Qed.

Lemma is_object_replace a b s :
  is_object_dtype s = true -> is_object_dtype (replace a b s) = true.
Proof. destruct s; try done. intros _. simpl. by destruct (existsb _ _). Qed.

Lemma normalize_bool_col l :
  l <> [] -> normalize_series (BoolCol l) = ObjCol (bool_str <$> l).
Proof.
  intros Hl.
  assert (is_object_dtype (normalize_series (BoolCol l)) = true) as Hobj.
  { unfold normalize_series.
    destruct (existsb (fun v => py_eq v (PBool true)) (values (BoolCol l))) eqn:Et.
    - apply is_object_replace. simpl in *. by rewrite Et.
    - rewrite (replace_no_match _ _ _ Et). simpl.
      destruct l as [|[] l]; [done| |]; simpl in *; [discriminate Et|done]. }
  pose proof (values_normalize_series (BoolCol l)) as Hv.
  cbn [holds_bool values] in Hv. rewrite normalize_val_bool_str in Hv.
  destruct (normalize_series (BoolCol l)); try done. simpl in Hv. by subst.
Qed.

(** X3: a label column of dtype bool with at least one row becomes the object
    column that holds "True" where the input holds True and "False" where it
    holds False, row by row. *)
Theorem X3_boolean_label_strings (df0 df : DataFrame) i l :
  wrangle df0 = inr df -> df0 !! i = Some ("Churn", BoolCol l) -> l <> [] ->
  df !! i = Some ("Churn", ObjCol (bool_str <$> l)).
Proof.
  intros [_ ->]%wrangle_inr Hi Hl.
  erewrite rename_lookup by by apply normalize_in_lookup_churn.
  by rewrite rename_label_churn, normalize_bool_col.
Qed.

Lemma X3_boolean_label_strings_witness :
  rename rename_dict (normalize_in sample_df) !! 7%nat
  = Some ("Churn", ObjCol [PStr "False"; PStr "True"]).
Proof.
  apply (X3_boolean_label_strings sample_df _ 7 [false; true]); done.
Defined.

(** ** The table when two columns share a label *)

Lemma series_of_inr (df : DataFrame) c s :
  series_of c df = inr s -> List.filter (has_label c) df = [(c, s)].
Proof.
  unfold series_of, getitem.
  destruct (List.filter (has_label c) df) as [|[n t] [|c' l]] eqn:E; try done.
  intros [= <-]. f_equal.
  assert (In (n, t) (List.filter (has_label c) df)) as Hin by (rewrite E; by left).
  apply List.filter_In in Hin as [_ Hl]. apply has_label_true in Hl. by subst.
Qed.

Lemma series_of_inl (df : DataFrame) c e :
  series_of c df = inl e -> c ∈ columns df ->
  e = AttributeError "'DataFrame' object has no attribute 'unique'".
Proof.
  unfold series_of. destruct (getitem c df) as [e'|[s|d]] eqn:E; try done.
  - apply getitem_inl in E as [_ Hn]. done.
  - by intros [= <-].
Qed.

Lemma stats_loop_inr (df : DataFrame) cs acc table :
  stats_loop df cs acc = inr table ->
  forall c, c ∈ cs -> exists s, series_of c df = inr s.
Proof.
  revert acc. induction cs as [|c cs IH]; intros acc H c' Hin.
  - by apply elem_of_nil in Hin.
  - cbn [stats_loop] in H. destruct (series_of c df) as [e|s] eqn:E; [done|].
    apply elem_of_cons in Hin as [->|Hin]; [by exists s|]. by eapply IH.
Qed.

Lemma stats_loop_inl (df : DataFrame) cs acc e :
  stats_loop df cs acc = inl e -> exists c, c ∈ cs /\ series_of c df = inl e.
Proof.
  revert acc. induction cs as [|c cs IH]; intros acc H; [done|].
  cbn [stats_loop] in H. destruct (series_of c df) as [e'|s] eqn:E.
  - injection H as <-. exists c. split; [left|done].
  - destruct (IH _ H) as (c' & Hin & Hc'). exists c'. split; [by right|done].
Qed.

Lemma filter_singleton_NoDup (df : DataFrame) :
  (forall c, c ∈ columns df -> exists s, List.filter (has_label c) df = [(c, s)]) ->
  NoDup (columns df).
Proof.
  unfold columns. induction df as [|[n t] df IH]; intros H.
  - constructor.
  - rewrite fmap_cons. cbn [fst]. apply NoDup_cons. split.
    + destruct (H n) as (s & Hs); [left|].
      cbn [List.filter] in Hs.
      assert (has_label n (n, t) = true) as Hl by by apply has_label_true.
      rewrite Hl in Hs. injection Hs as _ Hs. by apply filter_has_label_nil.
    + apply IH. intros c Hc.
      destruct (H c) as (s & Hs); [by right|].
      cbn [List.filter] in Hs. destruct (has_label c (n, t)).
      * injection Hs as _ _ Hs. apply filter_has_label_nil in Hs. done.
      * by exists s.
Qed.

(** X4: the table of the categorical features is built exactly when no two
    object columns of the frame share a label.  When two do, as after the
    rename of a frame that has both 'PaymentMethod' and 'Payment Method',
    [train_cat[c]] is a frame and the loop ends with the [AttributeError] of
    its missing [unique]. *)
Theorem X4_table_label_clash (train_df : DataFrame) :
  (NoDup (columns (select_dtypes_object train_df)) ->
   exists table, cat_stats train_df = inr table) /\
  (~ NoDup (columns (select_dtypes_object train_df)) ->
   cat_stats train_df
   = inl (AttributeError "'DataFrame' object has no attribute 'unique'")).
Proof.
  split.
  - intros Hnd. eexists. by apply cat_stats_rows.
  - intros Hdup. unfold cat_stats.
    destruct (stats_loop _ _ _) as [e|table] eqn:E.
    + apply stats_loop_inl in E as (c & Hin & Hc).
      by rewrite (series_of_inl _ c e Hc Hin).
    + exfalso. apply Hdup, filter_singleton_NoDup. intros c Hin.
      destruct (stats_loop_inr _ _ _ _ E c Hin) as (s & Hs).
      exists s. by apply series_of_inr.
Qed.

Lemma X4_table_label_clash_witness :
  (exists table, cat_stats (rename rename_dict (normalize_in sample_df)) = inr table) /\
  cat_stats (rename rename_dict (normalize_in clash_df))
  = inl (AttributeError "'DataFrame' object has no attribute 'unique'").
Proof.
  split.
  - apply (X4_table_label_clash (rename rename_dict (normalize_in sample_df))).
    refine (bool_decide_unpack _ _). by vm_compute.
  - apply (X4_table_label_clash (rename rename_dict (normalize_in clash_df))).
    refine (bool_decide_unpack _ _). by vm_compute.
Defined.

(** ** The columns of the table *)

Lemma isnull_same_key x y : isnull x = true -> isnull y = true -> same_key x y = true.
Proof. by destruct x, y. Qed.

Lemma existsb_isnull_same x l :
  isnull x = true -> existsb (same_key x) l = existsb isnull l.
Proof.
  intros Hx. induction l as [|y l IH]; [done|]. cbn [existsb]. rewrite IH. f_equal.
  destruct (isnull y) eqn:Hy; [by apply isnull_same_key|].
  destruct (same_key x y) eqn:E; [|done].
  apply same_key_isnull in E. congruence.
Qed.

(** The length of [unique()] is the count of the distinct values, and one
    more when a value is missing. *)
Lemma length_unique l :
  length (unique l)
  = (distinct_count l + (if existsb isnull l then 1 else 0))%nat.
Proof.
  induction l as [|x l IH] using rev_ind; [done|].
  rewrite unique_snoc, distinct_count_snoc, existsb_snoc. unfold hash_insert.
  rewrite (existsb_unique x l).
  destruct (isnull x) eqn:Hx.
  - rewrite (existsb_isnull_same x l Hx), orb_true_r. cbn [orb].
    destruct (existsb isnull l); [lia|]. rewrite length_app. simpl. lia.
  - rewrite orb_false_r. cbn [orb].
    destruct (existsb (same_key x) l); [lia|]. rewrite length_app. simpl. lia.
Qed.

Lemma missing_count_pos l : existsb isnull l = negb (missing_count l =? 0)%nat.
Proof.
  induction l as [|x l IH]; [done|]. cbn [existsb missing_count]. rewrite IH.
  by destruct (isnull x).
Qed.

Lemma distinct_missing_le l : (distinct_count l + missing_count l <= length l)%nat.
Proof.
  induction l as [|x l IH]; [done|]. cbn [distinct_count missing_count length].
  destruct (isnull x); cbn [orb]; [lia|].
  destruct (existsb (same_key x) l); lia.
Qed.

Lemma cat_stats_inr_rows (train_df : DataFrame) table :
  cat_stats train_df = inr table ->
  table = (fun c => stat_row (fst c) (snd c)) <$> select_dtypes_object train_df.
Proof.
  intros H.
  destruct (decide (NoDup (columns (select_dtypes_object train_df)))) as [Hnd|Hdup].
  - rewrite (cat_stats_rows _ Hnd) in H. by injection H as <-.
  - unfold cat_stats in H. exfalso. apply Hdup, filter_singleton_NoDup. intros c Hin.
    destruct (stats_loop_inr _ _ _ _ H c Hin) as (s & Hs).
    exists s. by apply series_of_inr.
Qed.

(** X5: in every row of the table the counts are consistent with the column
    they come from: 'Unique values' lists as many values as 'Categories'
    counts, and one more when the column has a missing value; neither count is
    negative, and together they do not exceed the number of rows. *)
Theorem X5_table_counts (train_df : DataFrame) table row :
  cat_stats train_df = inr table -> row ∈ table ->
  exists s,
    (Feature row, ObjCol s) ∈ train_df /\
    Unique_values row = unique s /\
    Z.of_nat (length (Unique_values row))
    = Categories row + (if 0 <? Missing_values row then 1 else 0) /\
    0 <= Categories row /\ 0 <= Missing_values row /\
    Categories row + Missing_values row <= Z.of_nat (length s).
Proof.
  intros ->%cat_stats_inr_rows Hrow.
  apply list_elem_of_fmap in Hrow as ([c col] & -> & Hin).
  unfold select_dtypes_object in Hin. apply list_elem_of_In, List.filter_In in Hin.
  destruct Hin as [Hin Hobj]. apply list_elem_of_In in Hin.
  destruct col as [| | |s]; try done. exists s. cbn [stat_row fst snd values
    Feature Unique_values Categories Missing_values].
  split; [done|]. split; [done|].
  rewrite nunique_distinct_count, isnull_sum_missing_count, length_unique.
  rewrite missing_count_pos.
  pose proof (distinct_missing_le s).
  split; [|lia].
  destruct (missing_count s) eqn:E; cbn [Nat.eqb negb].
  - change (0 <? Z.of_nat 0) with false. lia.
  - assert ((0 <? Z.of_nat (S n)) = true) as -> by (apply Z.ltb_lt; lia).
    lia.
Qed.

Lemma X5_table_counts_witness :
  exists s,
    (("Internet Service", ObjCol s) ∈ rename rename_dict (normalize_in sample_df)) /\
    unique [PStr "DSL"; PNaN] = unique s.
Proof.
  destruct (X5_table_counts (rename rename_dict (normalize_in sample_df))
              [ stat_row "Partner" (ObjCol [PStr "Yes"; PStr "No"]);
                stat_row "Dependents" (ObjCol [PStr "No"; PStr "No"]);
                stat_row "Internet Service" (ObjCol [PStr "DSL"; PNaN]);
                stat_row "Churn" (ObjCol [PStr "False"; PStr "True"]) ]
              (stat_row "Internet Service" (ObjCol [PStr "DSL"; PNaN])))
    as (s & Hin & Hu & _).
  - reflexivity.
  - right. right. left.
  - exists s. split; [exact Hin|exact Hu].
Defined.

Lemma hash_key_existsb x l :
  existsb (same_key x) l = true <-> hash_key x ∈ hash_key <$> l.
Proof.
  rewrite existsb_exists, list_elem_of_fmap. unfold same_key.
  split.
  - intros (y & Hin & Hy). apply bool_decide_eq_true in Hy.
    exists y. split; [done|by apply list_elem_of_In].
  - intros (y & Hy & Hin). exists y. split; [by apply list_elem_of_In|].
    by apply bool_decide_eq_true.
Qed.

(** ** The files after a run *)

Lemma append_inj_l p a b : p +:+ a = p +:+ b -> a = b.
Proof.
  induction p as [|c p IH]; [done|].
  rewrite !append_cons. intros [= H]. by apply IH.
Qed.

Lemma put_files_snoc out_dir arts n a m :
  put_files out_dir (arts ++ [(n, a)]) m
  = <[out_dir +:+ n := a]> (put_files out_dir arts m).
Proof. unfold put_files. by rewrite fold_left_app. Qed.

(** Under a name that occurs once, the file holds the artifact of that name. *)
Lemma put_files_lookup out_dir arts m name art :
  NoDup (fst <$> arts) -> (name, art) ∈ arts ->
  put_files out_dir arts m !! (out_dir +:+ name) = Some art.
Proof.
  induction arts as [|[n a] arts IH] using rev_ind; intros Hnd Hin.
  - by apply elem_of_nil in Hin.
  - rewrite put_files_snoc. rewrite fmap_app in Hnd.
    apply NoDup_app in Hnd as (Hnd & Hn & _).
    apply elem_of_app in Hin as [Hin|Hin].
    + rewrite lookup_insert_ne; [by apply IH|].
      intros Heq%append_inj_l. subst n. apply (Hn name); [|left].
      apply list_elem_of_fmap. by exists (name, art).
    + apply list_elem_of_singleton in Hin. injection Hin as -> ->.
      apply lookup_insert_eq.
Qed.

(** A path that is none of the written ones keeps its file. *)
Lemma put_files_other out_dir arts m p :
  p ∉ ((fun na => out_dir +:+ fst na) <$> arts) ->
  put_files out_dir arts m !! p = m !! p.
Proof.
  induction arts as [|[n a] arts IH] using rev_ind; intros Hp; [done|].
  rewrite put_files_snoc. rewrite fmap_app, not_elem_of_app in Hp.
  destruct Hp as [Hp Hn]. rewrite lookup_insert_ne; [by apply IH|].
  intros <-. apply Hn. left.
Qed.

Lemma put_files_lookup_ext out_dir arts m1 m2 p :
  m1 !! p = m2 !! p ->
  put_files out_dir arts m1 !! p = put_files out_dir arts m2 !! p.
Proof.
  intros Hp. induction arts as [|[n a] arts IH] using rev_ind; [done|].
  rewrite !put_files_snoc.
  destruct (decide (out_dir +:+ n = p)) as [<-|Hne].
  - by rewrite !lookup_insert_eq.
  - by rewrite !lookup_insert_ne.
Qed.

(** Writing the same artifacts again leaves the files as they are. *)
Lemma put_files_idem out_dir arts m :
  put_files out_dir arts (put_files out_dir arts m) = put_files out_dir arts m.
Proof.
  apply map_eq. intros p.
  induction arts as [|[n a] arts IH] using rev_ind; [done|].
  rewrite !put_files_snoc.
  destruct (decide (out_dir +:+ n = p)) as [<-|Hne].
  - by rewrite !lookup_insert_eq.
  - rewrite !lookup_insert_ne by done. etrans; [|exact IH].
    apply put_files_lookup_ext. by rewrite lookup_insert_ne.
Qed.

Lemma figures_built L input df0 w :
  accepted L input df0 -> well_formed df0 ->
  exists cor w',
    lib_corr L (rename rename_dict (normalize_in df0)) = inr cor /\
    figures L (rename rename_dict (normalize_in df0)) w
    = (inr (built_figures (rename rename_dict (normalize_in df0)) cor), w') /\
    w_files w' = w_files w /\ w_dirs w' = w_dirs w.
Proof.
  intros (_ & H1 & H2 & (cor & Hcor & H3) & H4 & H5 & _) [_ Hnd].
  exists cor. unfold figures, alt_chart, sns_heatmap, bind, lift, tell, raise, ret.
  rewrite H1, H2, Hcor, H3, (cat_stats_rows _ Hnd), H4, H5.
  eexists. split; [done|]. split; [reflexivity|]. done.
Qed.

Lemma save_all_built L input df0 out_dir train_df cor w :
  accepted L input df0 ->
  exists w',
    save_all L out_dir (built_figures train_df cor) w = (inr tt, w') /\
    w_files w' = put_files out_dir (built_files train_df cor) (w_files w) /\
    w_dirs w' = w_dirs w.
Proof.
  intros (_ & _ & _ & _ & _ & _ & He & Hs & Hf).
  unfold save_all, dfi_export, chart_save, savefig, print, bind, raise, ret.
  cbn [built_figures catfeatures_stats target_class_imbalance numeric_feat_dist
       numeric_feat_corr cat_feat_churn_dist cat_feat_2dhist].
  rewrite He, !Hs, Hf, !Hs. eexists. split; [reflexivity|]. done.
Qed.

(** A run that the libraries accept, with what it leaves in the files. *)
Lemma main_built L input out_dir w df0 :
  accepted L input df0 -> well_formed df0 ->
  exists cor w',
    lib_corr L (rename rename_dict (normalize_in df0)) = inr cor /\
    main L input out_dir w = (inr tt, w') /\
    w_files w'
    = put_files out_dir (built_files (rename rename_dict (normalize_in df0)) cor)
        (w_files w).
Proof.
  intros Hacc Hwf. rewrite main_eq.
  destruct (ensure_dir_returns L out_dir w) as (w1 & -> & (Hf1 & _) & _).
  rewrite load_eq. rewrite (proj1 Hacc), (wrangle_total df0) by apply Hwf.
  destruct (figures_built L input df0 (log (ReadCsv input) w1) Hacc Hwf)
    as (cor & w3 & Hcor & -> & Hf3 & _).
  exists cor. cbn [has_none built_figures target_class_imbalance numeric_feat_dist
    numeric_feat_corr cat_feat_churn_dist cat_feat_2dhist].
  destruct (save_all_built L input df0 out_dir
              (rename rename_dict (normalize_in df0)) cor w3 Hacc)
    as (w4 & H4 & Hf4 & _).
  exists w4. split; [done|]. split.
  - exact H4.
  - rewrite Hf4, Hf3. simpl. by rewrite Hf1.
Qed.

Lemma built_files_names train_df cor : fst <$> built_files train_df cor = out_names.
Proof. reflexivity. Qed.

Lemma out_names_NoDup : NoDup out_names.
Proof. refine (bool_decide_unpack _ _). by vm_compute. Qed.

(** X7: after a run that the libraries accept, each of the six files holds
    the artifact that belongs to its name: the table image under table_1, the
    class imbalance chart under figure_1, the numeric distributions under
    figure_2, the heat map under figure_3, the churn distributions under
    figure_4 and the 2D chart under figure_5, whatever [out_dir] is. *)
Theorem X7_files_hold_artifacts L input out_dir w df0 :
  accepted L input df0 -> well_formed df0 ->
  exists cor w',
    lib_corr L (rename rename_dict (normalize_in df0)) = inr cor /\
    main L input out_dir w = (inr tt, w') /\
    forall name art,
      (name, art) ∈ built_files (rename rename_dict (normalize_in df0)) cor ->
      w_files w' !! (out_dir +:+ name) = Some art.
Proof.
  intros Hacc Hwf.
  destruct (main_built L input out_dir w df0 Hacc Hwf) as (cor & w' & Hcor & Hrun & Hf).
  exists cor, w'. split; [done|]. split; [done|].
  intros name art Hin. rewrite Hf. apply put_files_lookup; [|done].
  rewrite built_files_names. apply out_names_NoDup.
Qed.

Lemma X7_files_hold_artifacts_witness :
  exists w',
    main (good_libs sample_df) "data.csv" "results/" empty_world = (inr tt, w') /\
    w_files w' !! ("results/" +:+ "figure_3_numeric_feat_corr.png")
    = Some (HeatmapImage []).
Proof.
  destruct (X7_files_hold_artifacts (good_libs sample_df) "data.csv" "results/"
              empty_world sample_df) as (cor & w' & Hcor & Hrun & Hfiles).
  - repeat split; try done. by exists [].
  - split; refine (bool_decide_unpack _ _); by vm_compute.
  - exists w'. split; [exact Hrun|]. injection Hcor as <-.
    apply Hfiles. do 3 right. left.
Defined.

(** X8: a second run on the same input and the same [out_dir], with libraries
    that accept the input, returns as the first did and leaves the files as
    the first run left them. *)
Theorem X8_rerun_same_files L input out_dir w df0 :
  accepted L input df0 -> well_formed df0 ->
  exists w1 w2,
    main L input out_dir w = (inr tt, w1) /\
    main L input out_dir w1 = (inr tt, w2) /\
    w_files w2 = w_files w1.
Proof.
  intros Hacc Hwf.
  destruct (main_built L input out_dir w df0 Hacc Hwf) as (cor & w1 & Hcor & H1 & Hf1).
  destruct (main_built L input out_dir w1 df0 Hacc Hwf) as (cor' & w2 & Hcor' & H2 & Hf2).
  exists w1, w2. split; [done|]. split; [done|].
  rewrite Hcor in Hcor'. injection Hcor' as <-.
  by rewrite Hf2, Hf1, put_files_idem.
Qed.

Lemma X8_rerun_same_files_witness :
  exists w1 w2,
    main (good_libs sample_df) "data.csv" "results/" empty_world = (inr tt, w1) /\
    main (good_libs sample_df) "data.csv" "results/" w1 = (inr tt, w2) /\
    w_files w2 = w_files w1.
Proof.
  apply (X8_rerun_same_files (good_libs sample_df) "data.csv" "results/" empty_world
           sample_df).
  - repeat split; try done. by exists [].
  - split; refine (bool_decide_unpack _ _); by vm_compute.
Defined.

(** ** The files after a run that fails *)

Lemma some_prefix_names {A} names (arts : list (option A)) :
  fst <$> some_prefix names arts `prefix_of` names.
Proof.
  revert arts. induction names as [|n names IH]; intros [|[a|] arts];
    cbn [some_prefix]; try apply prefix_nil.
  rewrite fmap_cons. cbn [fst]. apply prefix_cons, IH.
Qed.

Lemma file_list_take_names figs k :
  fst <$> take k (file_list figs) `prefix_of` out_names.
Proof.
  rewrite fmap_take. etrans; [apply prefix_take|]. apply some_prefix_names.
Qed.

Ltac pick_files :=
  first
    [ exists 0%nat; split; [by simpl_trace|split; [done|done]]
    | exists 1%nat; split; [by simpl_trace|split; [done|done]]
    | exists 2%nat; split; [by simpl_trace|split; [done|done]]
    | exists 3%nat; split; [by simpl_trace|split; [done|done]]
    | exists 4%nat; split; [by simpl_trace|split; [done|done]]
    | exists 5%nat; split; [by simpl_trace|split; [done|done]]
    | exists 6%nat; split; [by simpl_trace|split; [done|done]] ].

(** The saving stage, however far it gets: the files are those it started
    with, overwritten by what it wrote, and what it wrote is a prefix of the
    list of the named artifacts. *)
Lemma save_all_files L out_dir figs w :
  exists k,
    saved_paths (w_trace (snd (save_all L out_dir figs w)))
    = saved_paths (w_trace w)
      ++ ((fun na => out_dir +:+ fst na) <$> take k (file_list figs)) /\
    w_files (snd (save_all L out_dir figs w))
    = put_files out_dir (take k (file_list figs)) (w_files w) /\
    (forall u, fst (save_all L out_dir figs w) = inr u ->
               take k (file_list figs) = file_list figs /\ has_none figs = false).
Proof.
  unfold save_all, dfi_export, chart_save, savefig, print, bind, raise, ret.
  destruct figs as [f1 f2 f3 table f4 f5]. cbn [catfeatures_stats
    target_class_imbalance numeric_feat_dist numeric_feat_corr
    cat_feat_churn_dist cat_feat_2dhist].
  destruct (lib_dfi_export L w table _); cbn [fst snd]; try by pick_files.
  destruct f1 as [s1|]; cbn [fst snd]; try by pick_files.
  destruct (lib_chart_save L _ s1 _); cbn [fst snd]; try by pick_files.
  destruct f2 as [s2|]; cbn [fst snd]; try by pick_files.
  destruct (lib_chart_save L _ s2 _); cbn [fst snd]; try by pick_files.
  destruct f3 as [c3|]; cbn [fst snd]; try by pick_files.
  destruct (lib_savefig L _ c3 _); cbn [fst snd]; try by pick_files.
  destruct f4 as [s4|]; cbn [fst snd]; try by pick_files.
  destruct (lib_chart_save L _ s4 _); cbn [fst snd]; try by pick_files.
  destruct f5 as [s5|]; cbn [fst snd]; try by pick_files.
  destruct (lib_chart_save L _ s5 _); cbn [fst snd]; by pick_files.
Qed.

(** X9: whatever the libraries do, the files after [main] are the files of
    the start overwritten at exactly the paths that the run wrote, and the
    names written are the first names of the fixed list, in order: a write
    that fails leaves the files written before it in place, and a run that
    fails before the writes leaves every file as it was. *)
Theorem X9_files_follow_writes L input out_dir w :
  exists arts,
    fst <$> arts `prefix_of` out_names /\
    saved_paths (w_trace (snd (main L input out_dir w)))
    = saved_paths (w_trace w) ++ ((fun na => out_dir +:+ fst na) <$> arts) /\
    w_files (snd (main L input out_dir w)) = put_files out_dir arts (w_files w) /\
    (forall u, fst (main L input out_dir w) = inr u -> fst <$> arts = out_names).
Proof.
  rewrite main_eq.
  destruct (ensure_dir_returns L out_dir w) as (w1 & -> & (Hf1 & Hs1 & _) & _).
  destruct (load_quiet L input w1) as [(Hf2 & Hs2 & _) _].
  destruct (load L input w1) as [[e|train_df] w2]; cbn [fst snd] in *.
  { exists []. split; [apply prefix_nil|]. rewrite app_nil_r.
    split; [congruence|]. split; [by rewrite Hf2|done]. }
  destruct (figures_effect L train_df w2) as (Hf3 & Hs3 & _).
  destruct (figures L train_df w2) as [[e|figs] w3]; cbn [fst snd] in *.
  { exists []. split; [apply prefix_nil|]. rewrite app_nil_r.
    split; [congruence|]. split; [simpl; congruence|done]. }
  destruct (has_none figs) eqn:Hnone; cbn [fst snd].
  { exists []. split; [apply prefix_nil|]. rewrite app_nil_r.
    split; [congruence|]. split; [simpl; congruence|done]. }
  destruct (save_all_files L out_dir figs w3) as (k & Hs4 & Hf4 & Hret).
  exists (take k (file_list figs)). split; [apply file_list_take_names|].
  split; [rewrite Hs4; congruence|]. split; [rewrite Hf4; congruence|].
  intros u Hu. destruct (Hret u Hu) as [-> _].
  destruct figs as [[?|] [?|] [?|] ? [?|] [?|]]; done.
Qed.

Lemma X9_files_follow_writes_witness :
  fst (main (no_table_libs sample_df) "data.csv" "results/" empty_world)
  = inl permission_denied /\
  w_files (snd (main (no_table_libs sample_df) "data.csv" "results/" empty_world)) = ∅.
Proof.
  split; [reflexivity|].
  destruct (X9_files_follow_writes (no_table_libs sample_df) "data.csv" "results/"
              empty_world) as (arts & _ & Hs & Hf & _).
  destruct arts as [|a arts]; [exact Hf|].
  vm_compute in Hs. discriminate Hs.
Defined.

(** ** An output directory given with its separator *)

Lemma path_split_dir p : ends_with_sep p = true -> path_split p = (p, EmptyString).
Proof.
  induction p as [|c p IH]; [done|].
  rewrite path_split_cons. destruct p as [|c' p].
  - cbn [ends_with_sep path_split fst snd]. by intros ->.
  - intros H. rewrite IH by exact H. done.
Qed.

(** ** What is printed *)

Lemma figures_stdout L train_df w :
  w_stdout (snd (figures L train_df w)) = w_stdout w.
Proof.
  unfold figures, alt_chart, sns_heatmap, bind, lift, tell, raise, ret.
  destruct (lib_alt_chart L (class_imbalance_spec train_df)); cbn [fst snd]; try done.
  all: destruct (lib_alt_chart L (numeric_feat_dist_spec train_df));
    cbn [fst snd]; try done.
  all: destruct (lib_corr L train_df) as [e|cor]; cbn [fst snd]; try done.
  all: destruct (lib_heatmap L cor); cbn [fst snd]; try done.
  all: destruct (cat_stats train_df); cbn [fst snd]; try done.
  all: destruct (lib_alt_chart L (cat_feat_churn_dist_spec train_df));
    cbn [fst snd]; try done.
  all: destruct (lib_alt_chart L (cat_feat_2dhist_spec train_df));
    cbn [fst snd]; done.
Qed.

Lemma save_all_stdout L out_dir figs w :
  w_stdout (snd (save_all L out_dir figs w))
  = w_stdout w ++ match fst (save_all L out_dir figs w) with
                  | inr _ => [success_msg out_dir]
                  | inl _ => []
                  end.
Proof.
  unfold save_all, dfi_export, chart_save, savefig, print, bind, raise, ret.
  destruct figs as [f1 f2 f3 table f4 f5]. cbn [catfeatures_stats
    target_class_imbalance numeric_feat_dist numeric_feat_corr
    cat_feat_churn_dist cat_feat_2dhist].
  destruct (lib_dfi_export L w table _); cbn [fst snd]; [by rewrite app_nil_r|].
  destruct f1 as [s1|]; cbn [fst snd]; [|by rewrite app_nil_r].
  destruct (lib_chart_save L _ s1 _); cbn [fst snd]; [by rewrite app_nil_r|].
  destruct f2 as [s2|]; cbn [fst snd]; [|by rewrite app_nil_r].
  destruct (lib_chart_save L _ s2 _); cbn [fst snd]; [by rewrite app_nil_r|].
  destruct f3 as [c3|]; cbn [fst snd]; [|by rewrite app_nil_r].
  destruct (lib_savefig L _ c3 _); cbn [fst snd]; [by rewrite app_nil_r|].
  destruct f4 as [s4|]; cbn [fst snd]; [|by rewrite app_nil_r].
  destruct (lib_chart_save L _ s4 _); cbn [fst snd]; [by rewrite app_nil_r|].
  destruct f5 as [s5|]; cbn [fst snd]; [|by rewrite app_nil_r].
  destruct (lib_chart_save L _ s5 _); cbn [fst snd]; [by rewrite app_nil_r|].
  done.
Qed.

(** X11: [main] prints at most two lines: the message of the directory that
    could not be made, exactly when the directory was absent and making it
    failed, and then the line that reports success, exactly when [main]
    returns.  A run that ends with an error never reports success. *)
Theorem X11_printed_lines L input out_dir w :
  w_stdout (snd (main L input out_dir w))
  = w_stdout w
    ++ (if bool_decide (out_dir ∈ w_dirs w) || bool_decide (is_Some (w_files w !! out_dir))
        then []
        else match lib_makedirs L w out_dir with
             | Some _ => [makedirs_msg]
             | None => []
             end)
    ++ match fst (main L input out_dir w) with
       | inr _ => [success_msg out_dir]
       | inl _ => []
       end.
Proof.
  assert (exists w1,
    ensure_dir L out_dir w = (inr tt, w1) /\
    w_stdout w1
    = w_stdout w
      ++ (if bool_decide (out_dir ∈ w_dirs w)
             || bool_decide (is_Some (w_files w !! out_dir))
          then []
          else match lib_makedirs L w out_dir with
               | Some _ => [makedirs_msg]
               | None => []
               end)) as (w1 & H1 & Hout1).
  { unfold ensure_dir, bind, os_path_exists, try_except, os_makedirs, print, ret.
    destruct (bool_decide (out_dir ∈ w_dirs w)
              || bool_decide (is_Some (w_files w !! out_dir))); cbn [negb].
    - eexists. split; [done|]. by rewrite app_nil_r.
    - destruct (lib_makedirs L w out_dir); eexists; (split; [done|]);
        simpl; by rewrite ?app_nil_r. }
  rewrite app_assoc, <- Hout1, main_eq, H1, load_eq.
  destruct (match lib_read_csv L w1 input with inl e => inl e | inr df0 => wrangle df0 end)
    as [e|train_df]; cbn [fst snd]; [by rewrite app_nil_r|].
  pose proof (figures_stdout L train_df (log (ReadCsv input) w1)) as Hout3.
  destruct (figures L train_df (log (ReadCsv input) w1)) as [[e|figs] w3];
    cbn [fst snd] in *; [by rewrite app_nil_r|].
  destruct (has_none figs); cbn [fst snd]; [by rewrite app_nil_r|].
  by rewrite save_all_stdout, Hout3.
Qed.

(** ** The output directory on a second call *)

(** X12: once the output directory is there, whether it was found or made,
    lines 31 to 36 leave the world as it is: [os.makedirs] is not called
    again and nothing is printed. *)
Theorem X12_ensure_dir_once L out_dir w w1 :
  ensure_dir L out_dir w = (inr tt, w1) ->
  out_dir ∈ w_dirs w \/ is_Some (w_files w !! out_dir)
  \/ lib_makedirs L w out_dir = None ->
  (out_dir ∈ w_dirs w1 \/ is_Some (w_files w1 !! out_dir)) /\
  ensure_dir L out_dir w1 = (inr tt, w1).
Proof.
  intros H1 Hthere.
  assert (forall w', out_dir ∈ w_dirs w' \/ is_Some (w_files w' !! out_dir) ->
            ensure_dir L out_dir w' = (inr tt, w')) as Hnoop.
  { intros w' Hw'. unfold ensure_dir, bind, os_path_exists, ret.
    destruct Hw' as [Hd|Hf].
    - by rewrite (bool_decide_eq_true_2 _ Hd).
    - rewrite (bool_decide_eq_true_2 _ Hf). by rewrite orb_true_r. }
  assert (out_dir ∈ w_dirs w1 \/ is_Some (w_files w1 !! out_dir)) as Hw1.
  { destruct (decide (out_dir ∈ w_dirs w)) as [Hd|Hnd].
    { rewrite Hnoop in H1 by by left. injection H1 as <-. by left. }
    destruct (decide (is_Some (w_files w !! out_dir))) as [Hf|Hnf].
    { rewrite Hnoop in H1 by by right. injection H1 as <-. by right. }
    destruct Hthere as [?|[?|Hmk]]; [done|done|].
    assert (ensure_dir L out_dir w
            = (inr tt, add_dir out_dir (log (Makedirs out_dir) w))) as Hmade.
    { unfold ensure_dir, bind, os_path_exists, try_except, os_makedirs, print, ret.
      rewrite (bool_decide_eq_false_2 _ Hnd), (bool_decide_eq_false_2 _ Hnf).
      cbn [orb negb]. by rewrite Hmk. }
    rewrite Hmade in H1. injection H1 as <-. left. simpl. set_solver. }
  split; [exact Hw1|by apply Hnoop].
Qed.

Lemma X12_ensure_dir_once_witness :
  ensure_dir (good_libs sample_df) "results/"
    (add_dir "results/" (log (Makedirs "results/") empty_world))
  = (inr tt, add_dir "results/" (log (Makedirs "results/") empty_world)).
Proof.
  apply (X12_ensure_dir_once (good_libs sample_df) "results/" empty_world).
  - reflexivity.
  - right. right. reflexivity.
Defined.

(** ** Where the files are written *)

Lemma put_files_is_Some out_dir arts m name :
  name ∈ fst <$> arts -> is_Some (put_files out_dir arts m !! (out_dir +:+ name)).
Proof.
  induction arts as [|[n a] arts IH] using rev_ind; intros Hin.
  - by apply elem_of_nil in Hin.
  - rewrite put_files_snoc, lookup_insert_is_Some'.
    rewrite fmap_app in Hin. apply elem_of_app in Hin as [Hin|Hin].
    + right. by apply IH.
    + apply list_elem_of_singleton in Hin. simpl in Hin. subst. by left.
Qed.

(** The files and the trace after [main], however far it gets. *)
Lemma main_files L input out_dir w :
  exists arts,
    fst <$> arts `prefix_of` out_names /\
    saved_paths (w_trace (snd (main L input out_dir w)))
    = saved_paths (w_trace w) ++ ((fun na => out_dir +:+ fst na) <$> arts) /\
    w_files (snd (main L input out_dir w)) = put_files out_dir arts (w_files w) /\
    (forall u, fst (main L input out_dir w) = inr u -> fst <$> arts = out_names).
Proof.
  rewrite main_eq.
  destruct (ensure_dir_returns L out_dir w) as (w1 & -> & (Hf1 & Hs1 & _) & _).
  destruct (load_quiet L input w1) as [(Hf2 & Hs2 & _) _].
  destruct (load L input w1) as [[e|train_df] w2]; cbn [fst snd] in *.
  { exists []. split; [apply prefix_nil|]. rewrite app_nil_r.
    split; [congruence|]. split; [by rewrite Hf2|done]. }
  destruct (figures_effect L train_df w2) as (Hf3 & Hs3 & _).
  destruct (figures L train_df w2) as [[e|figs] w3]; cbn [fst snd] in *.
  { exists []. split; [apply prefix_nil|]. rewrite app_nil_r.
    split; [congruence|]. split; [simpl; congruence|done]. }
  destruct (has_none figs) eqn:Hnone; cbn [fst snd].
  { exists []. split; [apply prefix_nil|]. rewrite app_nil_r.
    split; [congruence|]. split; [simpl; congruence|done]. }
  destruct (save_all_files L out_dir figs w3) as (k & Hs4 & Hf4 & Hret).
  exists (take k (file_list figs)). split; [apply file_list_take_names|].
  split; [rewrite Hs4; congruence|]. split; [rewrite Hf4; congruence|].
  intros u Hu. destruct (Hret u Hu) as [-> _].
  destruct figs as [[?|] [?|] [?|] ? [?|] [?|]]; done.
Qed.

(** The names [main] writes under: the first names of the fixed list, all of
    them when [main] returns, each at [out_dir] followed by the name, where a
    file then is. *)
Lemma main_writes L input out_dir w :
  exists names,
    names `prefix_of` out_names /\
    saved_paths (w_trace (snd (main L input out_dir w)))
    = saved_paths (w_trace w) ++ ((fun n => out_dir +:+ n) <$> names) /\
    (forall u, fst (main L input out_dir w) = inr u -> names = out_names) /\
    (forall name, name ∈ names ->
       is_Some (w_files (snd (main L input out_dir w)) !! (out_dir +:+ name))).
Proof.
  destruct (main_files L input out_dir w) as (arts & Hpre & Hs & Hf & Hret).
  exists (fst <$> arts). split; [done|]. split.
  { rewrite Hs. f_equal. rewrite <- list_fmap_compose. done. }
  split; [done|].
  intros name Hin. rewrite Hf. by apply put_files_is_Some.
Qed.

(** C9: every path [main] writes to is [out_dir] with the fixed name put
    directly after it: the names written are the first names of the fixed
    list, in order, all six when [main] returns, and after the run a file is
    at each of these paths.  When [out_dir] does not end with a separator,
    such a path has the directory part of [out_dir] itself, and its file name
    is the last component of [out_dir] followed by the fixed name: the file is
    a sibling of [out_dir], not the file of that name in the directory
    [out_dir], whose directory part would be [out_dir] and a separator. *)
Theorem C9_output_paths L input out_dir w :
  exists names,
    names `prefix_of` out_names /\
    saved_paths (w_trace (snd (main L input out_dir w)))
    = saved_paths (w_trace w) ++ ((fun n => out_dir +:+ n) <$> names) /\
    (forall u, fst (main L input out_dir w) = inr u -> names = out_names) /\
    (forall name, name ∈ names ->
       is_Some (w_files (snd (main L input out_dir w)) !! (out_dir +:+ name)) /\
       (ends_with_sep out_dir = false ->
        path_split (out_dir +:+ name)
        = (fst (path_split out_dir), snd (path_split out_dir) +:+ name) /\
        (out_dir <> EmptyString -> snd (path_split out_dir) <> EmptyString) /\
        path_split (out_dir +:+ "/" +:+ name) = (out_dir +:+ "/", name) /\
        fst (path_split (out_dir +:+ name)) <> out_dir +:+ "/")).
Proof.
  destruct (main_writes L input out_dir w) as (names & Hpre & Hs & Hret & Hfile).
  exists names. split; [done|]. split; [done|]. split; [done|].
  intros name Hin. split; [by apply Hfile|]. intros Hends.
  assert (has_sep name = false) as Hname.
  { apply out_names_no_sep. destruct Hpre as [rest ->].
    apply elem_of_app. by left. }
  split; [by apply path_split_app|]. split; [|split].
  - intros Hne Hsnd. destruct (path_split_snd_empty out_dir Hsnd); congruence.
  - by apply path_split_into.
  - rewrite path_split_app by done. cbn [fst]. intros Heq.
    pose proof (path_split_fst_length out_dir) as Hlen.
    rewrite Heq, string_length_app in Hlen. cbn in Hlen. lia.
Qed.

Lemma C9_output_paths_witness :
  saved_paths (w_trace (snd (main (good_libs sample_df) "data.csv" "results/eda"
                               empty_world)))
  = (fun n => "results/eda" +:+ n) <$> out_names /\
  is_Some (w_files (snd (main (good_libs sample_df) "data.csv" "results/eda"
                           empty_world))
           !! ("results/eda" +:+ "figure_1_class_imbalance.png")) /\
  path_split ("results/eda" +:+ "figure_1_class_imbalance.png")
  = ("results/", "eda" +:+ "figure_1_class_imbalance.png").
Proof.
  destruct (C9_output_paths (good_libs sample_df) "data.csv" "results/eda"
              empty_world) as (names & _ & Hs & Hret & Hname).
  pose proof (Hret tt eq_refl) as ->.
  split; [exact Hs|].
  destruct (Hname "figure_1_class_imbalance.png") as (Hfile & Hsib).
  - right. left.
  - split; [exact Hfile|]. by destruct (Hsib eq_refl) as (Hsplit & _).
Defined.

(** X10: when [out_dir] ends with the separator, every path [main] writes to
    is the file of the fixed name in the directory [out_dir]: the names
    written are the first names of the fixed list, all six when [main]
    returns, a file is at each path after the run, and the path has
    [out_dir] as its directory part and the fixed name as its file name. *)
Theorem X10_trailing_separator L input out_dir w :
  ends_with_sep out_dir = true ->
  exists names,
    names `prefix_of` out_names /\
    saved_paths (w_trace (snd (main L input out_dir w)))
    = saved_paths (w_trace w) ++ ((fun n => out_dir +:+ n) <$> names) /\
    (forall u, fst (main L input out_dir w) = inr u -> names = out_names) /\
    (forall name, name ∈ names ->
       is_Some (w_files (snd (main L input out_dir w)) !! (out_dir +:+ name)) /\
       path_split (out_dir +:+ name) = (out_dir, name)).
Proof.
  intros Hsep.
  destruct (main_writes L input out_dir w) as (names & Hpre & Hs & Hret & Hfile).
  exists names. split; [done|]. split; [done|]. split; [done|].
  intros name Hin. split; [by apply Hfile|].
  assert (has_sep name = false) as Hname.
  { apply out_names_no_sep. destruct Hpre as [rest ->].
    apply elem_of_app. by left. }
  rewrite path_split_app by done. by rewrite (path_split_dir out_dir Hsep).
Qed.

Lemma X10_trailing_separator_witness :
  saved_paths (w_trace (snd (main (good_libs sample_df) "data.csv" "results/eda/"
                               empty_world)))
  = (fun n => "results/eda/" +:+ n) <$> out_names /\
  is_Some (w_files (snd (main (good_libs sample_df) "data.csv" "results/eda/"
                           empty_world))
           !! ("results/eda/" +:+ "figure_5_cat_feat_2dhist.png")) /\
  path_split ("results/eda/" +:+ "figure_5_cat_feat_2dhist.png")
  = ("results/eda/", "figure_5_cat_feat_2dhist.png").
Proof.
  destruct (X10_trailing_separator (good_libs sample_df) "data.csv" "results/eda/"
              empty_world eq_refl) as (names & _ & Hs & Hret & Hname).
  pose proof (Hret tt eq_refl) as ->.
  split; [exact Hs|].
  apply (Hname "figure_5_cat_feat_2dhist.png").
  do 5 right. left.
Defined.

(** ** The unique values of a row of the table *)

Lemma filter_filter_and {A} (P Q : A -> bool) l :
  List.filter P (List.filter Q l) = List.filter (fun y => Q y && P y) l.
Proof.
  induction l as [|x l IH]; [done|]. cbn [List.filter].
  destruct (Q x); cbn [List.filter andb]; [|done]. by rewrite IH.
Qed.

(** The hash table from any start: what it adds to the values it holds are
    the first occurrences that share no key with them. *)
Lemma fold_hash_insert_firsts l acc :
  fold_left hash_insert l acc
  = acc ++ List.filter (fun y => negb (existsb (same_key y) acc)) (firsts l).
Proof.
  revert acc. induction l as [|x l IH]; intros acc.
  - simpl. by rewrite app_nil_r.
  - cbn [fold_left firsts List.filter]. rewrite IH. unfold hash_insert.
    destruct (existsb (same_key x) acc) eqn:E; cbn [negb].
    + f_equal. rewrite filter_filter_and. apply List.filter_ext_in.
      intros y _. destruct (same_key x y) eqn:Exy; cbn [negb andb]; [|done].
      by rewrite <- (same_key_existsb x y acc Exy), E.
    + rewrite <- app_assoc. cbn [app]. do 2 f_equal.
      rewrite filter_filter_and. apply List.filter_ext.
      intros y. rewrite existsb_snoc, negb_orb, (same_key_sym y x).
      apply andb_comm.
Qed.

Lemma unique_firsts l : unique l = firsts l.
Proof.
  unfold unique. rewrite fold_hash_insert_firsts. cbn [app].
  rewrite <- (List.filter_ext (fun _ => true)) by done.
  induction (firsts l) as [|x t IH]; [done|]. cbn [List.filter]. by rewrite IH.
Qed.

Lemma unique_sublist l : sublist (unique l) l.
Proof.
  induction l as [|x l IH] using rev_ind; [done|].
  rewrite unique_snoc. unfold hash_insert.
  destruct (existsb (same_key x) (unique l)).
  - by apply sublist_inserts_r.
  - by apply sublist_app.
Qed.

Lemma unique_keys_NoDup l : NoDup (hash_key <$> unique l).
Proof.
  induction l as [|x l IH] using rev_ind; [constructor|].
  rewrite unique_snoc. unfold hash_insert.
  destruct (existsb (same_key x) (unique l)) eqn:E; [done|].
  rewrite fmap_app. apply NoDup_app. split; [done|]. split.
  - intros k Hk Hx. apply list_elem_of_singleton in Hx as ->.
    apply hash_key_existsb in Hk. congruence.
  - apply NoDup_singleton.
Qed.

Lemma unique_first_place l u :
  u ∈ unique l ->
  exists l1 l2, l = l1 ++ u :: l2 /\ hash_key u ∉ hash_key <$> l1.
Proof.
  induction l as [|x l IH] using rev_ind; intros Hin.
  - by apply elem_of_nil in Hin.
  - rewrite unique_snoc in Hin. unfold hash_insert in Hin.
    assert (u ∈ unique l ->
            exists l1 l2, l ++ [x] = l1 ++ u :: l2 /\ hash_key u ∉ hash_key <$> l1)
      as Hold.
    { intros Hu. destruct (IH Hu) as (l1 & l2 & -> & Hk).
      exists l1, (l2 ++ [x]). split; [by rewrite <- app_assoc|done]. }
    destruct (existsb (same_key x) (unique l)) eqn:E; [by apply Hold|].
    apply elem_of_app in Hin as [Hin|Hin]; [by apply Hold|].
    apply list_elem_of_singleton in Hin as ->.
    exists l, []. split; [done|]. intros Hk.
    apply hash_key_existsb in Hk. rewrite <- existsb_unique in Hk. congruence.
Qed.

(** X6: in every row of the table, 'Unique values' holds the values of the
    column in the order of the column, each kept where its key stands for the
    first time and dropped where the key has stood before: it is [firsts] of
    the column.  So it is a subsequence of the column, no two of its values
    share a key, every value of the column shares its key with one of them,
    and each of them stands in the column with no value of its key before
    it. *)
Theorem X6_unique_first_occurrences (train_df : DataFrame) table row :
  cat_stats train_df = inr table -> row ∈ table ->
  exists s,
    (Feature row, ObjCol s) ∈ train_df /\
    Unique_values row = firsts s /\
    sublist (Unique_values row) s /\
    NoDup (hash_key <$> Unique_values row) /\
    (forall v, v ∈ s -> hash_key v ∈ hash_key <$> Unique_values row) /\
    (forall u, u ∈ Unique_values row ->
       exists l1 l2, s = l1 ++ u :: l2 /\ hash_key u ∉ hash_key <$> l1).
Proof.
  intros ->%cat_stats_inr_rows Hrow.
  apply list_elem_of_fmap in Hrow as ([c col] & -> & Hin).
  unfold select_dtypes_object in Hin. apply list_elem_of_In, List.filter_In in Hin.
  destruct Hin as [Hin Hobj]. apply list_elem_of_In in Hin.
  destruct col as [| | |s]; try done. exists s.
  cbn [stat_row fst snd values Feature Unique_values].
  split; [done|]. split; [apply unique_firsts|]. split; [apply unique_sublist|].
  split; [apply unique_keys_NoDup|]. split.
  - intros v Hv. apply hash_key_existsb. rewrite existsb_unique.
    apply existsb_exists. exists v. split; [by apply list_elem_of_In|].
    apply same_key_refl.
  - intros u. apply unique_first_place.
Qed.

Lemma X6_unique_first_occurrences_witness :
  exists s,
    (("Partner", ObjCol s) ∈ rename rename_dict (normalize_in sample_df)) /\
    [PStr "Yes"; PStr "No"] = firsts s.
Proof.
  destruct (X6_unique_first_occurrences (rename rename_dict (normalize_in sample_df))
              [ stat_row "Partner" (ObjCol [PStr "Yes"; PStr "No"]);
                stat_row "Dependents" (ObjCol [PStr "No"; PStr "No"]);
                stat_row "Internet Service" (ObjCol [PStr "DSL"; PNaN]);
                stat_row "Churn" (ObjCol [PStr "False"; PStr "True"]) ]
              (stat_row "Partner" (ObjCol [PStr "Yes"; PStr "No"])))
    as (s & Hin & Hu & _).
  - reflexivity.
  - left.
  - exists s. split; [exact Hin|exact Hu].
Defined.
